(** * A verification model of [src/src/index.ts] (github-folder-downloader)

    The model follows the TypeScript source:
    - [parseGitHubUrl] with its three regular expressions, each written as
      the matcher that a JavaScript backtracking engine runs for it;
    - the JS and Node string/path helpers the code relies on
      ([String.prototype.replace] with a string pattern, [startsWith],
      [path.join], [path.dirname], [path.basename], [path.resolve]);
    - [downloadFolder] as explicit state passing over an abstract file
      system, with the network and the ZIP stream as an environment, and
      the spinner output and file-system calls recorded as a trace. *)

From Stdlib Require Import String Ascii List Bool Arith Lia.
Import ListNotations.
Open Scope string_scope.

(* ------------------------------------------------------------------ *)
(** ** Strings *)

Definition chr_nl : ascii := ascii_of_nat 10.
Definition chr_cr : ascii := ascii_of_nat 13.

(** JavaScript's [.] (without the [s] flag) matches any character but a
    line terminator; on 8-bit characters those are LF and CR. *)
Definition is_line_terminator (c : ascii) : bool :=
  Ascii.eqb c chr_nl || Ascii.eqb c chr_cr.

Fixpoint str_forall (f : ascii -> bool) (s : string) : bool :=
  match s with
  | EmptyString => true
  | String c s' => f c && str_forall f s'
  end.

Definition no_line_terminator (s : string) : bool :=
  str_forall (fun c => negb (is_line_terminator c)) s.

Definition no_char (d : ascii) (s : string) : bool :=
  str_forall (fun c => negb (Ascii.eqb c d)) s.

Definition nonempty (s : string) : bool :=
  match s with EmptyString => false | _ => true end.

Fixpoint drop (n : nat) (s : string) : string :=
  match n, s with
  | O, _ => s
  | S _, EmptyString => EmptyString
  | S n', String _ s' => drop n' s'
  end.

(** [s.startsWith(p)] *)
Definition starts_with (p s : string) : bool := String.prefix p s.

(** [s.replace(pat, rep)] with a string pattern: only the first
    occurrence of [pat] is replaced; an empty [pat] matches at index 0. *)
Fixpoint replace_first (pat rep s : string) : string :=
  if String.prefix pat s then rep ++ drop (String.length pat) s
  else match s with
       | EmptyString => EmptyString
       | String c s' => String c (replace_first pat rep s')
       end.

(** [s.replace(/\/$/, '')]: removes one trailing slash. *)
Fixpoint strip_trailing_slash (s : string) : string :=
  match s with
  | EmptyString => EmptyString
  | String c EmptyString => if Ascii.eqb c "/" then EmptyString else s
  | String c s' => String c (strip_trailing_slash s')
  end.

(* ------------------------------------------------------------------ *)
(** ** [parseGitHubUrl] *)

Record RepoRef := mkRepoRef {
  owner : string;
  repo : string;
  branch : option string;
  subfolder : option string
}.

Inductive result (A : Type) :=
| Ok (a : A)
| Err (msg : string).
Arguments Ok {A} a.
Arguments Err {A} msg.

(** Splits [s] at its first character [d]: the part before it and the
    rest, which is empty or starts with [d]. *)
Fixpoint span_until (d : ascii) (s : string) : string * string :=
  match s with
  | EmptyString => (EmptyString, EmptyString)
  | String c s' =>
      if Ascii.eqb c d then (EmptyString, s)
      else let (a, b) := span_until d s' in (String c a, b)
  end.

(** The character class [\w.-] : [A-Za-z0-9_.-]. *)
Definition is_shorthand_char (c : ascii) : bool :=
  let n := nat_of_ascii c in
  ((65 <=? n)%nat && (n <=? 90)%nat) || ((97 <=? n)%nat && (n <=? 122)%nat)
  || ((48 <=? n)%nat && (n <=? 57)%nat) || Ascii.eqb c "_" || Ascii.eqb c "."
  || Ascii.eqb c "-".

Fixpoint span_class (f : ascii -> bool) (s : string) : string * string :=
  match s with
  | EmptyString => (EmptyString, EmptyString)
  | String c s' =>
      if f c then let (a, b) := span_class f s' in (String c a, b)
      else (EmptyString, s)
  end.

(** [treeUrlRegex = /^https:\/\/github\.com\/([^/]+)\/([^/]+)\/tree\/([^/]+)\/(.+)$/].
    Each [[^/]+] is followed by a slash, so it is the maximal run of
    non-slash characters; the final [(.+)$] is the non-empty rest, free of
    line terminators. *)
Definition tree_match (s : string) : option (string * string * string * string) :=
  if String.prefix "https://github.com/" s then
    let t := drop 19 s in
    match span_until "/" t with
    | (o, String _ t1) =>
      if nonempty o then
        match span_until "/" t1 with
        | (r, String _ t2) =>
          if nonempty r && String.prefix "tree/" t2 then
            match span_until "/" (drop 5 t2) with
            | (b, String _ t3) =>
              if nonempty b && nonempty t3 && no_line_terminator t3
              then Some (o, r, b, t3) else None
            | _ => None
            end
          else None
        | _ => None
        end
      else None
    | _ => None
    end
  else None.

(** [shorthandRegex = /^([\w.-]+)\/([\w.-]+)(?:#(.+))?$/].  Both groups
    are maximal runs of the class (a shorter run would be followed by a
    class character, which neither [\/] nor [#] nor [$] accepts). *)
Definition shorthand_match (s : string) : option (string * string * option string) :=
  match span_class is_shorthand_char s with
  | (g1, String c t1) =>
    if nonempty g1 && Ascii.eqb c "/" then
      match span_class is_shorthand_char t1 with
      | (g2, EmptyString) => if nonempty g2 then Some (g1, g2, None) else None
      | (g2, String h t) =>
        if nonempty g2 && Ascii.eqb h "#" && nonempty t && no_line_terminator t
        then Some (g1, g2, Some t) else None
      end
    else None
  | _ => None
  end.

(** [fullRepoRegex = /github\.com\/(.+?)\/(.+?)(?:\.git)?(?:#(.+))?$/],
    unanchored.  The engine tries start positions left to right; at one
    position the lazy owner and repo groups are tried shortest first; for
    each repo length the greedy [(?:\.git)?] is tried present then absent,
    and inside each the greedy [(?:#(.+))?] present then absent, before [$]. *)

(** [(?:#(.+))?$] on the remaining input [r]. *)
Definition hash_tail (r : string) : option (option string) :=
  match r with
  | EmptyString => Some None
  | String c t =>
      if Ascii.eqb c "#" && nonempty t && no_line_terminator t
      then Some (Some t) else None
  end.

(** [(?:\.git)?(?:#(.+))?$] on the remaining input [r]. *)
Definition git_hash_tail (r : string) : option (option string) :=
  match (if String.prefix ".git" r then hash_tail (drop 4 r) else None) with
  | Some b => Some b
  | None => hash_tail r
  end.

(** [(.+?)] for the repo, followed by the tail. *)
Fixpoint repo_loop (acc u : string) : option (string * option string) :=
  match u with
  | EmptyString => None
  | String c u' =>
      if is_line_terminator c then None
      else let acc' := acc ++ String c EmptyString in
           match git_hash_tail u' with
           | Some b => Some (acc', b)
           | None => repo_loop acc' u'
           end
  end.

(** [(.+?)\/] for the owner, followed by the repo part. *)
Fixpoint owner_loop (acc t : string) : option (string * string * option string) :=
  match t with
  | EmptyString => None
  | String c t' =>
      if is_line_terminator c then None
      else let acc' := acc ++ String c EmptyString in
           match (match t' with
                  | String d u => if Ascii.eqb d "/" then repo_loop EmptyString u else None
                  | EmptyString => None
                  end) with
           | Some (r, b) => Some (acc', r, b)
           | None => owner_loop acc' t'
           end
  end.

Definition generic_at (s : string) : option (string * string * option string) :=
  if String.prefix "github.com/" s then owner_loop EmptyString (drop 11 s) else None.

Fixpoint generic_match (s : string) : option (string * string * option string) :=
  match s with
  | EmptyString => generic_at s
  | String _ s' =>
      match generic_at s with
      | Some m => Some m
      | None => generic_match s'
      end
  end.

Definition invalid_format_msg : string :=
  "Invalid GitHub repo format. Use owner/repo[#branch] or full GitHub folder URL.".

Definition parseGitHubUrl (input : string) : result RepoRef :=
  match tree_match input with
  | Some (o, r, b, sf) => Ok (mkRepoRef o r (Some b) (Some sf))
  | None =>
    match shorthand_match input with
    | Some (o, r, b) => Ok (mkRepoRef o r b None)
    | None =>
      match generic_match input with
      | Some (o, r, b) => Ok (mkRepoRef o r b None)
      | None => Err invalid_format_msg
      end
    end
  end.

(** Shapes of parser inputs used in the statements below. *)

(** The [#branch] part of an input. *)
Definition hash_part (b : option string) : string :=
  match b with None => EmptyString | Some t => "#" ++ t end.

(** The suffix [(\.git)?(#branch)?] after the repo name. *)
Definition repo_suffix (git : bool) (b : option string) : string :=
  (if git then ".git" else EmptyString) ++ hash_part b.

Definition branch_ok (b : option string) : bool :=
  match b with Some t => nonempty t && no_line_terminator t | None => true end.

Definition ends_with_git (s : string) : Prop := exists u, s = u ++ ".git".

(** Number of slashes before the first [#]: the shorthand form has exactly one. *)
Fixpoint slashes_before_hash (s : string) : nat :=
  match s with
  | EmptyString => 0
  | String c s' =>
      if Ascii.eqb c "#" then 0
      else if Ascii.eqb c "/" then S (slashes_before_hash s') else slashes_before_hash s'
  end.

(* ------------------------------------------------------------------ *)
(** ** Node's [path] module (POSIX) *)

Definition chr_slash : ascii := "/".

Fixpoint split_slash (s : string) : list string :=
  match s with
  | EmptyString => [EmptyString]
  | String c s' =>
      if Ascii.eqb c "/" then EmptyString :: split_slash s'
      else match split_slash s' with
           | x :: xs => String c x :: xs
           | [] => [String c EmptyString]
           end
  end.

(** [normalizeString]: the segment stack, most recent segment first. *)
Definition normalize_step (allow_above_root : bool) (st : list string) (seg : string)
  : list string :=
  if String.eqb seg EmptyString || String.eqb seg "." then st
  else if String.eqb seg ".." then
    match st with
    | x :: st' => if String.eqb x ".." then (if allow_above_root then ".." :: st else st)
                  else st'
    | [] => if allow_above_root then [".."] else []
    end
  else seg :: st.

Definition normalize_string (s : string) (allow_above_root : bool) : string :=
  String.concat "/" (rev (fold_left (normalize_step allow_above_root) (split_slash s) [])).

Definition is_absolute (s : string) : bool := String.prefix "/" s.

Fixpoint ends_with_slash (s : string) : bool :=
  match s with
  | EmptyString => false
  | String c EmptyString => Ascii.eqb c "/"
  | String _ s' => ends_with_slash s'
  end.

(** [path.normalize] *)
Definition path_normalize (p : string) : string :=
  if String.eqb p EmptyString then "."
  else
    let abs := is_absolute p in
    let trailing := ends_with_slash p in
    let body := normalize_string p (negb abs) in
    if String.eqb body EmptyString then (if abs then "/" else if trailing then "./" else ".")
    else (if abs then "/" else EmptyString) ++ body ++ (if trailing then "/" else EmptyString).

(** [path.join(a, b)]: empty arguments are skipped, the others joined by
    a slash, and the result normalized. *)
Definition path_join (a b : string) : string :=
  match nonempty a, nonempty b with
  | false, false => "."
  | true, false => path_normalize a
  | false, true => path_normalize b
  | true, true => path_normalize (a ++ "/" ++ b)
  end.

(** [path.resolve(cwd, p)] for an absolute [cwd] (as [process.cwd()] is). *)
Definition path_resolve (cwd p : string) : string :=
  let full := if is_absolute p then p
              else if nonempty p then cwd ++ "/" ++ p else cwd in
  "/" ++ normalize_string full false.

(** The backwards scan of [path.dirname] over the characters after the
    first one, last character first: returns the characters before the
    separator where the scan stops (still reversed). *)
Fixpoint dirname_scan (matched_slash : bool) (rb : list ascii) : option (list ascii) :=
  match rb with
  | [] => None
  | c :: rb' =>
      if Ascii.eqb c "/" then
        (if matched_slash then dirname_scan true rb' else Some rb')
      else dirname_scan false rb'
  end.

(** [path.dirname] *)
Definition path_dirname (p : string) : string :=
  match list_ascii_of_string p with
  | [] => "."
  | c0 :: rest =>
      let has_root := Ascii.eqb c0 "/" in
      match dirname_scan true (rev rest) with
      | None => if has_root then "/" else "."
      | Some before =>
          if has_root && Nat.eqb (length before) 0 then "//"
          else string_of_list_ascii (c0 :: rev before)
      end
  end.

Fixpoint drop_slashes (l : list ascii) : list ascii :=
  match l with
  | c :: l' => if Ascii.eqb c "/" then drop_slashes l' else l
  | [] => []
  end.

Fixpoint take_non_slash (l : list ascii) : list ascii :=
  match l with
  | c :: l' => if Ascii.eqb c "/" then [] else c :: take_non_slash l'
  | [] => []
  end.

(** [path.basename]: the last segment, trailing slashes ignored. *)
Definition path_basename (p : string) : string :=
  string_of_list_ascii
    (rev (take_non_slash (drop_slashes (rev (list_ascii_of_string p))))).

(* ------------------------------------------------------------------ *)
(** ** Archive entries, network and trace *)

(** [entry.type] as produced by unzipper. *)
Inductive EntryType := Directory | File.

Record Entry := mkEntry {
  entry_path : string;
  entry_type : EntryType;
  entry_content : string
}.

(** The result of [fetch]: [res.ok] with the value read from it, a
    non-[ok] response with its [statusText], or a rejected promise. *)
Inductive Response (A : Type) :=
| RespOk (a : A)
| RespNotOk (status_text : string)
| RespNetError (msg : string).
Arguments RespOk {A} a.
Arguments RespNotOk {A} status_text.
Arguments RespNetError {A} msg.

(** The outside world of one run.  [env_zip] answers the ZIP request with
    [res.body] ([None]: no body) already decoded into the entries that the
    unzipper stream yields, in order. *)
Record Env := mkEnv {
  env_cwd : string;
  env_tmpdir : string;
  env_now : string;
  env_metadata : string -> string -> Response string;
  env_zip : string -> Response (option (list Entry))
}.

(** A Node file-system error: [err.code] and [err.message]. *)
Record FsError := mkFsError { err_code : string; err_message : string }.

(** [fs.stat]: [stats.isFile()], or the rejection. *)
Inductive StatResult :=
| Stat (is_file : bool)
| StatFailed (e : FsError).

(** [fs.readdir]: the directory's names, or the rejection. *)
Inductive ReaddirResult :=
| Readdir (names : list string)
| ReaddirFailed (e : FsError).

Definition dq : string := String (ascii_of_nat 34) EmptyString.

(** What the run prints through the spinner and the file-system calls it
    issues, in order.  [EvEnsureDir] and [EvWrite] carry the error of the
    call, if any. *)
Inductive Event :=
| EvFetch (url : string)
| EvStat (p : string)
| EvReaddir (p : string)
| EvEnsureDir (p : string) (outcome : option FsError)
| EvWrite (p : string) (outcome : option FsError)
| EvDrain (p : string)
| EvRemove (p : string)
| EvWarn (msg : string)
| EvFail (msg : string)
| EvSucceed (sub out_dir : string) (files : nat).

(** The verdict of the pre-flight probe of the output directory. *)
Inductive GuardVerdict :=
| GuardProceed
| GuardIsFile
| GuardNotEmpty
| GuardProbeError (msg : string).

(** Appending to the trace. *)
Infix "+++" := (@app Event) (at level 60, right associativity).

Section Run.

(** The file system, behind the [fs-extra] calls the code makes.  A call
    that fails still returns the state it leaves behind (e.g. a partially
    written file). *)
Variable FS : Type.
Variable fs_stat : string -> FS -> StatResult.
Variable fs_readdir : string -> FS -> ReaddirResult.
Variable fs_ensureDir : string -> FS -> FS * option FsError.
(** [entry.pipe(fs.createWriteStream(p))] until ['finish'] or ['error']. *)
Variable fs_writeFile : string -> string -> FS -> FS * option FsError.
(** [fs.remove(p).catch(() => {})] *)
Variable fs_remove : string -> FS -> FS.

Record LoopState := mkLoopState {
  ls_fs : FS;
  ls_files : nat;          (* filesExtracted *)
  ls_matched : bool;       (* matchedSomething *)
  ls_trace : list Event
}.

Definition ls_log (st : LoopState) (evs : list Event) : LoopState :=
  mkLoopState (ls_fs st) (ls_files st) (ls_matched st) (ls_trace st +++ evs).

Definition warn_msg (e : Entry) (err : FsError) : string :=
  "Failed to extract " ++ entry_path e ++ ": " ++ err_message err.

(** The in-scope test of the loop body. *)
Definition in_scope (prefix nsub path : string) : bool :=
  let rel := replace_first prefix EmptyString path in
  String.eqb rel nsub || starts_with (nsub ++ "/") rel.

(** [localPath] of the loop body. *)
Definition local_path (prefix nsub out_dir path : string) : string :=
  let rel := replace_first prefix EmptyString path in
  path_join out_dir (replace_first (nsub ++ "/") EmptyString rel).

(** One iteration of [for await (const entry of stream)], its [try] and
    its [catch] (which only warns). *)
Definition step_entry (prefix nsub out_dir : string) (st : LoopState) (e : Entry)
  : LoopState :=
  if in_scope prefix nsub (entry_path e) then
    let lp := local_path prefix nsub out_dir (entry_path e) in
    let files := ls_files st in
    let tr := ls_trace st in
    match entry_type e with
    | Directory =>
        let (fs1, r) := fs_ensureDir lp (ls_fs st) in
        let tr1 := tr +++ [EvEnsureDir lp r] in
        match r with
        | None => mkLoopState fs1 files true tr1
        | Some err => mkLoopState fs1 files true (tr1 +++ [EvWarn (warn_msg e err)])
        end
    | File =>
        let dir := path_dirname lp in
        let (fs1, r1) := fs_ensureDir dir (ls_fs st) in
        let tr1 := tr +++ [EvEnsureDir dir r1] in
        match r1 with
        | Some err => mkLoopState fs1 files true (tr1 +++ [EvWarn (warn_msg e err)])
        | None =>
            let (fs2, r2) := fs_writeFile lp (entry_content e) fs1 in
            let tr2 := tr1 +++ [EvWrite lp r2] in
            match r2 with
            | None => mkLoopState fs2 (S files) true tr2
            | Some err => mkLoopState fs2 files true (tr2 +++ [EvWarn (warn_msg e err)])
            end
        end
    end
  else ls_log st [EvDrain (entry_path e)].

Fixpoint extract_loop (prefix nsub out_dir : string) (st : LoopState) (es : list Entry)
  : LoopState :=
  match es with
  | [] => st
  | e :: es' => extract_loop prefix nsub out_dir (step_entry prefix nsub out_dir st e) es'
  end.

(** The pre-flight probe: [fs.stat], then [fs.readdir], both inside one
    [try] whose [catch] lets only [ENOENT] through. *)
Definition target_guard (out_dir : string) (fs : FS) : list Event * GuardVerdict :=
  match fs_stat out_dir fs with
  | StatFailed e =>
      ([EvStat out_dir],
       if String.eqb (err_code e) "ENOENT" then GuardProceed
       else GuardProbeError (err_message e))
  | Stat true => ([EvStat out_dir], GuardIsFile)
  | Stat false =>
      ([EvStat out_dir; EvReaddir out_dir],
       match fs_readdir out_dir fs with
       | ReaddirFailed e =>
           if String.eqb (err_code e) "ENOENT" then GuardProceed
           else GuardProbeError (err_message e)
       | Readdir [] => GuardProceed
       | Readdir (_ :: _) => GuardNotEmpty
       end)
  end.

(** The end of a run: the final file system, the trace and
    [process.exitCode] ([None] while unset). *)
Record RunResult := mkRunResult {
  rr_fs : FS;
  rr_trace : list Event;
  rr_exit : option nat
}.

(** What the loop needs once the pre-loop stages succeeded. *)
Record ExtractCtx := mkExtractCtx {
  cx_prefix : string;
  cx_nsub : string;
  cx_out_dir : string;
  cx_temp_dir : string;
  cx_entries : list Entry;
  cx_start : LoopState
}.

Inductive Stage :=
| Finished (r : RunResult)
| Ready (cx : ExtractCtx).

Definition target_or (target : option string) (dflt : string) : string :=
  match target with
  | Some t => if nonempty t then t else dflt
  | None => dflt
  end.

Definition default_dir_name (sub : string) : string :=
  let b := path_basename (strip_trailing_slash sub) in
  if nonempty b then b else "downloaded-folder".

Definition output_dir_of (env : Env) (sub : string) (target : option string) : string :=
  path_resolve (env_cwd env) (target_or target (default_dir_name sub)).

Definition temp_dir_of (env : Env) : string :=
  path_join (env_tmpdir env) ("gh-folder-" ++ env_now env).

(** The outer [catch]: fail, remove [tempDir] when it is set, exit 1. *)
Definition outer_catch (temp : option string) (fs : FS) (tr : list Event) (msg : string)
  : Stage :=
  match temp with
  | None => Finished (mkRunResult fs (tr +++ [EvFail msg]) (Some 1))
  | Some t => Finished (mkRunResult (fs_remove t fs) (tr +++ [EvFail msg; EvRemove t]) (Some 1))
  end.

Definition zip_url (o r b : string) : string :=
  "https://github.com/" ++ o ++ "/" ++ r ++ "/archive/refs/heads/" ++ b ++ ".zip".

Definition metadata_url (o r : string) : string :=
  "https://api.github.com/repos/" ++ o ++ "/" ++ r.

(** [downloadFolder] from the output-path computation (after the ZIP
    response was accepted) up to the [for await] loop. *)
Definition after_download (env : Env) (fs : FS) (sub : string) (target : option string)
  (temp prefix : string) (entries : list Entry) (tr1 : list Event) : Stage :=
  let out := output_dir_of env sub target in
  let (gtr, verdict) := target_guard out fs in
  let tr2 := tr1 +++ gtr in
  match verdict with
  | GuardIsFile =>
      Finished (mkRunResult fs (tr2 +++ [EvFail ("Target " ++ out ++
        " exists as a file. Please remove it or choose another name.")]) (Some 1))
  | GuardNotEmpty =>
      Finished (mkRunResult fs (tr2 +++ [EvFail ("Directory " ++ out ++
        " already exists and is not empty.")]) (Some 1))
  | GuardProbeError m =>
      Finished (mkRunResult fs (tr2 +++ [EvFail ("Error checking target path: " ++ m)]) (Some 1))
  | GuardProceed =>
    let (fs1, r1) := fs_ensureDir temp fs in
    let tr3 := tr2 +++ [EvEnsureDir temp r1] in
    match r1 with
    | Some err => outer_catch (Some temp) fs1 tr3 (err_message err)
    | None =>
      let (fs2, r2) := fs_ensureDir out fs1 in
      let tr4 := tr3 +++ [EvEnsureDir out r2] in
      match r2 with
      | Some err => outer_catch (Some temp) fs2 tr4 (err_message err)
      | None =>
        Ready (mkExtractCtx prefix (strip_trailing_slash sub) out temp entries
                 (mkLoopState fs2 0 false tr4))
      end
    end
  end.

(** [downloadFolder] up to the [for await] loop. *)
Definition prepare (env : Env) (fs : FS) (repoUrl sub : string) (target : option string)
  : Stage :=
  match parseGitHubUrl repoUrl with
  | Err m => outer_catch None fs [] m
  | Ok rf =>
    let o := owner rf in
    let r := repo rf in
    let branch_res :=
      match branch rf with
      | Some b => if nonempty b then (RespOk b, []) else (env_metadata env o r, [EvFetch (metadata_url o r)])
      | None => (env_metadata env o r, [EvFetch (metadata_url o r)])
      end in
    match branch_res with
    | (RespNotOk st, tr) => outer_catch None fs tr ("Failed to fetch repo metadata: " ++ st)
    | (RespNetError m, tr) => outer_catch None fs tr m
    | (RespOk fb, tr0) =>
      let url := zip_url o r fb in
      let temp := temp_dir_of env in
      let prefix := r ++ "-" ++ fb ++ "/" in
      let tr1 := tr0 +++ [EvFetch url] in
      match env_zip env url with
      | RespNetError m => outer_catch (Some temp) fs tr1 m
      | RespNotOk st => outer_catch (Some temp) fs tr1 ("Failed to download ZIP: " ++ st)
      | RespOk None => outer_catch (Some temp) fs tr1 "Error fetching data"
      | RespOk (Some entries) => after_download env fs sub target temp prefix entries tr1
      end
    end
  end.

(** After the loop: the [matchedSomething] check and the success report. *)
Definition finish (sub : string) (cx : ExtractCtx) (st : LoopState) : RunResult :=
  if ls_matched st then
    mkRunResult (ls_fs st) (ls_trace st +++ [EvSucceed sub (cx_out_dir cx) (ls_files st)]) None
  else
    mkRunResult (fs_remove (cx_temp_dir cx) (ls_fs st))
      (ls_trace st +++ [EvFail ("Subfolder " ++ dq ++ sub ++ dq ++ " not found in repo.");
                       EvRemove (cx_temp_dir cx)]) (Some 1).

Definition run_loop (cx : ExtractCtx) : LoopState :=
  extract_loop (cx_prefix cx) (cx_nsub cx) (cx_out_dir cx) (cx_start cx) (cx_entries cx).

Definition downloadFolder (env : Env) (fs : FS) (repoUrl sub : string)
  (target : option string) : RunResult :=
  match prepare env fs repoUrl sub target with
  | Finished r => r
  | Ready cx => finish sub cx (run_loop cx)
  end.

End Run.

(* ------------------------------------------------------------------ *)
(** ** A concrete file system, for running the model on examples *)

Module ConcreteFS.

Inductive Node := NDir | NFile (content : string).

(** The nodes by absolute path, and the paths the process may not write. *)
Record CFS := mkCFS {
  cfs_nodes : list (string * Node);
  cfs_denied : list string
}.

Definition lookup (p : string) (fs : CFS) : option Node :=
  match find (fun kv => String.eqb (fst kv) p) (cfs_nodes fs) with
  | Some (_, n) => Some n
  | None => None
  end.

Definition set_node (p : string) (n : Node) (fs : CFS) : CFS :=
  mkCFS ((p, n) :: filter (fun kv => negb (String.eqb (fst kv) p)) (cfs_nodes fs))
        (cfs_denied fs).

Definition denied (p : string) (fs : CFS) : bool :=
  existsb (String.eqb p) (cfs_denied fs).

Definition err (code : string) (p : string) : FsError :=
  mkFsError code (code ++ ": " ++ p).

Fixpoint ancestors_acc (acc : string) (segs : list string) : list string :=
  match segs with
  | [] => []
  | s :: ss => if String.eqb s EmptyString then ancestors_acc acc ss
               else let a := acc ++ "/" ++ s in a :: ancestors_acc a ss
  end.

(** ["/a/b/c"] gives ["/a"; "/a/b"; "/a/b/c"]. *)
Definition ancestors (p : string) : list string := ancestors_acc EmptyString (split_slash p).

Definition stat (p : string) (fs : CFS) : StatResult :=
  match lookup p fs with
  | Some (NFile _) => Stat true
  | Some NDir => Stat false
  | None => StatFailed (err "ENOENT" p)
  end.

(** The names directly below [p]. *)
Definition children (p : string) (fs : CFS) : list string :=
  flat_map (fun kv =>
              if String.prefix (p ++ "/") (fst kv) then
                let rest := drop (String.length p + 1) (fst kv) in
                if no_char "/" rest && nonempty rest then [rest] else []
              else []) (cfs_nodes fs).

Definition readdir (p : string) (fs : CFS) : ReaddirResult :=
  match lookup p fs with
  | Some NDir => Readdir (children p fs)
  | Some (NFile _) => ReaddirFailed (err "ENOTDIR" p)
  | None => ReaddirFailed (err "ENOENT" p)
  end.

Fixpoint mkdirs (ps : list string) (fs : CFS) : CFS * option FsError :=
  match ps with
  | [] => (fs, None)
  | a :: ps' =>
      match lookup a fs with
      | Some NDir => mkdirs ps' fs
      | Some (NFile _) => (fs, Some (err (match ps' with [] => "EEXIST" | _ => "ENOTDIR" end) a))
      | None => if denied a fs then (fs, Some (err "EACCES" a))
                else mkdirs ps' (set_node a NDir fs)
      end
  end.

(** [fs.ensureDir], i.e. [mkdir -p]. *)
Definition ensureDir (p : string) (fs : CFS) : CFS * option FsError :=
  mkdirs (ancestors p) fs.

(** Creating [p] and streaming [c] into it. *)
Definition writeFile (p c : string) (fs : CFS) : CFS * option FsError :=
  if denied p fs then (fs, Some (err "EACCES" p))
  else match lookup p fs with
       | Some NDir => (fs, Some (err "EISDIR" p))
       | _ => match lookup (path_dirname p) fs with
              | Some NDir => (set_node p (NFile c) fs, None)
              | _ => (fs, Some (err "ENOENT" p))
              end
       end.

(** [fs.remove]: [p] and everything below it. *)
Definition remove (p : string) (fs : CFS) : CFS :=
  mkCFS (filter (fun kv => negb (String.eqb (fst kv) p || String.prefix (p ++ "/") (fst kv)))
                (cfs_nodes fs)) (cfs_denied fs).

Definition runC := downloadFolder CFS stat readdir ensureDir writeFile remove.
Definition prepareC := prepare CFS stat readdir ensureDir remove.
Definition loopC := run_loop CFS ensureDir writeFile.

End ConcreteFS.

(** A sample archive: a root directory, two files under [keep/] and one under [skip/]. *)
Definition sample_entries : list Entry :=
  [ mkEntry "repo-branch/" Directory EmptyString;
    mkEntry "repo-branch/keep/a.txt" File "A";
    mkEntry "repo-branch/keep/sub/b.txt" File "B";
    mkEntry "repo-branch/skip/c.txt" File "C" ].

Definition sample_env (entries : list Entry) : Env :=
  mkEnv "/work" "/tmp" "1700000000000"
        (fun _ _ => RespOk "main")
        (fun url => if String.eqb url (zip_url "o" "repo" "branch")
                    then RespOk (Some entries) else RespNotOk "Not Found").

Definition root_fs : ConcreteFS.CFS :=
  ConcreteFS.mkCFS [("/", ConcreteFS.NDir); ("/work", ConcreteFS.NDir); ("/tmp", ConcreteFS.NDir)] [].

(** Further archives and file systems for the concrete runs. *)
Definition sample_dirs_only : list Entry :=
  [ mkEntry "repo-branch/" Directory EmptyString;
    mkEntry "repo-branch/keep/" Directory EmptyString;
    mkEntry "repo-branch/keep/empty/" Directory EmptyString;
    mkEntry "repo-branch/skip/c.txt" File "C" ].

Definition denied_fs : ConcreteFS.CFS :=
  ConcreteFS.mkCFS [("/", ConcreteFS.NDir); ("/output", ConcreteFS.NDir)] ["/output/a.txt"].

Definition busy_fs : ConcreteFS.CFS :=
  ConcreteFS.mkCFS [("/", ConcreteFS.NDir); ("/work", ConcreteFS.NDir);
                    ("/work/notes.txt", ConcreteFS.NFile "n"); ("/tmp", ConcreteFS.NDir)] [].

(** A temporary directory that already holds an entry named like the run's scratch path. *)
Definition tmp_busy_fs : ConcreteFS.CFS :=
  ConcreteFS.mkCFS [("/", ConcreteFS.NDir); ("/work", ConcreteFS.NDir); ("/tmp", ConcreteFS.NDir);
                    ("/tmp/gh-folder-1700000000000", ConcreteFS.NDir);
                    ("/tmp/gh-folder-1700000000000/data.txt", ConcreteFS.NFile "d")] [].

(** Successful file writes recorded in a trace. *)
Fixpoint count_ok_writes (tr : list Event) : nat :=
  match tr with
  | [] => 0
  | EvWrite _ None :: tr' => S (count_ok_writes tr')
  | _ :: tr' => count_ok_writes tr'
  end.

(** Whether a trace reports success. *)
Definition has_success (tr : list Event) : bool :=
  existsb (fun ev => match ev with EvSucceed _ _ _ => true | _ => false end) tr.

(** Whether a trace issues a call of the extraction phase. *)
Definition has_extraction_call (tr : list Event) : bool :=
  existsb (fun ev => match ev with
                     | EvEnsureDir _ _ | EvWrite _ _ | EvDrain _ => true
                     | _ => false end) tr.

(** Events that are neither a final report nor a removal. *)
Definition pre_event (ev : Event) : bool :=
  match ev with EvFail _ | EvSucceed _ _ _ | EvRemove _ => false | _ => true end.

(** Number of final reports ([spinner.fail] or [spinner.succeed]). *)
Fixpoint count_final (tr : list Event) : nat :=
  match tr with
  | [] => 0
  | (EvFail _ | EvSucceed _ _ _) :: tr' => S (count_final tr')
  | _ :: tr' => count_final tr'
  end.

(** A path segment as [normalizeString] keeps it. *)
Definition valid_segment (s : string) : bool :=
  nonempty s && negb (String.eqb s ".") && negb (String.eqb s "..") && no_char "/" s.

(** [../] repeated [n] times. *)
Fixpoint dotdots (n : nat) : string :=
  match n with O => EmptyString | S n' => "../" ++ dotdots n' end.

(** The three ways a run ends: a failure report, a failure report followed
    by the removal of [tempDir], or a success report after [tempDir] was
    created; everything before is a fetch, a probe or an extraction call. *)
Definition run_shape {FS : Type} (temp : string) (r : RunResult FS) : Prop :=
  exists pre, forallb pre_event pre = true /\
    ((exists m, rr_trace FS r = pre +++ [EvFail m] /\ rr_exit FS r = Some 1)
     \/ (exists m, rr_trace FS r = pre +++ [EvFail m; EvRemove temp] /\ rr_exit FS r = Some 1)
     \/ (exists s o n, rr_trace FS r = pre +++ [EvSucceed s o n] /\ rr_exit FS r = None /\
                       In (EvEnsureDir temp None) pre)).

(* ------------------------------------------------------------------ *)
(** ** The CLI entry [main] *)

(** What [main] writes to the console ([chalk] colours left out):
    [console.log], [console.error] (its two arguments joined by a space)
    and [printHelp()]. *)
Inductive ConsoleLine :=
| CLog (msg : string)
| CError (msg : string)
| CHelp.

(** [getVersion]: [__APP_VERSION__] when the build defines it, the
    [version] field of [package.json] otherwise. *)
Definition getVersion (app_version : option string) (package_version : string) : string :=
  match app_version with Some v => v | None => package_version end.

(** The [repoUrl] that [main] hands to [downloadFolder]. *)
Definition repo_url_of (p : RepoRef) : string :=
  owner p ++ "/" ++ repo p ++
  match branch p with Some b => if nonempty b then "#" ++ b else EmptyString | None => EmptyString end.

Definition subfolder_required : string := "Subfolder path is required.".

(** Truthiness of an optional string. *)
Definition truthy (o : option string) : bool :=
  match o with Some s => nonempty s | None => false end.

Section Main.

Variable FS : Type.
Variable fs_stat : string -> FS -> StatResult.
Variable fs_readdir : string -> FS -> ReaddirResult.
Variable fs_ensureDir : string -> FS -> FS * option FsError.
Variable fs_writeFile : string -> string -> FS -> FS * option FsError.
Variable fs_remove : string -> FS -> FS.

(** The end of [main]: the console output, the exit status ([process.exit]
    or [process.exitCode]; [None] while unset) and the [downloadFolder] run
    it awaited, if any. *)
Record MainResult := mkMainResult {
  mr_console : list ConsoleLine;
  mr_exit : option nat;
  mr_run : option (RunResult FS)
}.

(** [main] on [process.argv.slice(2)]; [process.exit(0)] ends it at once. *)
Definition main (version : string) (env : Env) (fs : FS) (args : list string) : MainResult :=
  if existsb (String.eqb "--version") args then
    mkMainResult [CLog ("github-folder-downloader v" ++ version)] (Some 0) None
  else if existsb (String.eqb "--help") args || Nat.eqb (length args) 0 then
    mkMainResult [CHelp] (Some 0) None
  else
    match parseGitHubUrl (hd EmptyString args) with
    | Err m => mkMainResult [CError ("Error: " ++ m)] (Some 1) None
    | Ok parsed =>
      if negb (truthy (subfolder parsed)) && Nat.ltb (length args) 2 then
        mkMainResult [CError subfolder_required; CHelp] (Some 1) None
      else
        let (sub, target) :=
          if truthy (subfolder parsed) then (subfolder parsed, nth_error args 1)
          else (nth_error args 1, nth_error args 2) in
        if truthy sub then
          let r := downloadFolder FS fs_stat fs_readdir fs_ensureDir fs_writeFile fs_remove
                     env fs (repo_url_of parsed) (match sub with Some s => s | None => EmptyString end)
                     target in
          mkMainResult [] (rr_exit FS r) (Some r)
        else mkMainResult [CError subfolder_required; CHelp] (Some 1) None
    end.

End Main.

(** Number of slashes in a string. *)
Fixpoint slash_count (s : string) : nat :=
  match s with
  | EmptyString => 0
  | String c s' => (if Ascii.eqb c "/" then 1 else 0) + slash_count s'
  end.

(* ================================================================== *)
(** * Lemmas *)

(** Sample evaluations of the parser and of the path functions. *)
Example parse_ex1 : parseGitHubUrl "https://github.com/user/repo/tree/main/src/lib"
  = Ok (mkRepoRef "user" "repo" (Some "main") (Some "src/lib")).
Proof. reflexivity. Qed.
Example parse_ex2 : parseGitHubUrl "metallicjs/templates#dev"
  = Ok (mkRepoRef "metallicjs" "templates" (Some "dev") None).
Proof. reflexivity. Qed.
Example parse_ex3 : parseGitHubUrl "https://github.com/o/r.git#b"
  = Ok (mkRepoRef "o" "r" (Some "b") None).
Proof. reflexivity. Qed.
Example parse_ex4 : parseGitHubUrl "git@github.com:o/r" = Err invalid_format_msg.
Proof. reflexivity. Qed.
Example parse_ex5 : parseGitHubUrl "x github.com/a/b/c"
  = Ok (mkRepoRef "a" "b/c" None None).
Proof. reflexivity. Qed.

Example join_ex1 : path_join "/out" "sub/b.txt" = "/out/sub/b.txt".
Proof. reflexivity. Qed.
Example join_ex2 : path_join "/out" EmptyString = "/out".
Proof. reflexivity. Qed.
Example join_ex3 : path_join "/out" "a/../../x/" = "/x/".
Proof. reflexivity. Qed.
Example dirname_ex1 : path_dirname "/out/sub/b.txt" = "/out/sub".
Proof. reflexivity. Qed.
Example dirname_ex2 : path_dirname "/out" = "/".
Proof. reflexivity. Qed.
Example basename_ex1 : path_basename "src/components" = "components".
Proof. reflexivity. Qed.
Example resolve_ex1 : path_resolve "/home/u" "./my-folder/" = "/home/u/my-folder".
Proof. reflexivity. Qed.

Lemma prefix_app (p r : string) : String.prefix p (p ++ r) = true.
Proof.
  induction p as [|c p IH]; simpl; [destruct r; reflexivity|].
  destruct (ascii_dec c c); [exact IH | congruence].
Qed.

Lemma drop_app (p r : string) : drop (String.length p) (p ++ r) = r.
Proof. induction p; simpl; auto. Qed.

Lemma replace_first_prefix (p rep r : string) :
  replace_first p rep (p ++ r) = rep ++ r.
Proof.
  destruct p as [|c p].
  - destruct r; reflexivity.
  - simpl. destruct (ascii_dec c c); [|congruence].
    rewrite prefix_app. simpl. rewrite drop_app. reflexivity.
Qed.

Lemma count_ok_writes_app (a b : list Event) :
  count_ok_writes (a ++ b) = count_ok_writes a + count_ok_writes b.
Proof.
  induction a as [|ev a IH]; simpl; [reflexivity|].
  destruct ev as [| | | ? [|] | ? [|] | | | | |]; simpl; rewrite ?IH; reflexivity.
Qed.

Section LoopFacts.
Variable FS : Type.
Variable fs_ensureDir : string -> FS -> FS * option FsError.
Variable fs_writeFile : string -> string -> FS -> FS * option FsError.
Variables prefix nsub out_dir : string.

Local Abbreviation step := (step_entry FS fs_ensureDir fs_writeFile prefix nsub out_dir).
Local Abbreviation loop := (extract_loop FS fs_ensureDir fs_writeFile prefix nsub out_dir).

Ltac case_step :=
  unfold step_entry, ls_log;
  destruct (in_scope _ _ _); simpl;
  [ destruct (entry_type _);
    [ destruct (fs_ensureDir _ _) as [? [?|]]
    | destruct (fs_ensureDir _ _) as [? [?|]];
      [ | destruct (fs_writeFile _ _ _) as [? [?|]] ] ]
  | ]; simpl.

Lemma loop_app (st : LoopState FS) (es1 es2 : list Entry) :
  loop st (es1 ++ es2) = loop (loop st es1) es2.
Proof. revert st; induction es1; simpl; auto. Qed.

Lemma step_matched (st : LoopState FS) (e : Entry) :
  ls_matched FS (step st e) = ls_matched FS st || in_scope prefix nsub (entry_path e).
Proof.
  unfold step_entry, ls_log. destruct (in_scope _ _ _) eqn:Hs; simpl.
  - rewrite orb_true_r. destruct (entry_type e).
    + destruct (fs_ensureDir _ _) as [? [?|]]; reflexivity.
    + destruct (fs_ensureDir _ _) as [? [?|]]; [reflexivity|].
      destruct (fs_writeFile _ _ _) as [? [?|]]; reflexivity.
  - rewrite orb_false_r. reflexivity.
Qed.

Lemma loop_matched (st : LoopState FS) (es : list Entry) :
  ls_matched FS (loop st es)
  = ls_matched FS st || existsb (fun e => in_scope prefix nsub (entry_path e)) es.
Proof.
  revert st; induction es as [|e es IH]; intro st; simpl.
  - rewrite orb_false_r; reflexivity.
  - rewrite IH, step_matched, orb_assoc. reflexivity.
Qed.

(** [filesExtracted] minus the successful writes in the trace is kept. *)
Lemma step_files_writes (st : LoopState FS) (e : Entry) :
  ls_files FS (step st e) + count_ok_writes (ls_trace FS st)
  = ls_files FS st + count_ok_writes (ls_trace FS (step st e)).
Proof.
  case_step; rewrite ?count_ok_writes_app; simpl; lia.
Qed.

Lemma loop_files_writes (st : LoopState FS) (es : list Entry) :
  ls_files FS (loop st es) + count_ok_writes (ls_trace FS st)
  = ls_files FS st + count_ok_writes (ls_trace FS (loop st es)).
Proof.
  revert st; induction es as [|e es IH]; intro st; simpl; [reflexivity|].
  pose proof (step_files_writes st e). specialize (IH (step st e)). lia.
Qed.

Lemma step_files_no_file (st : LoopState FS) (e : Entry) :
  (in_scope prefix nsub (entry_path e) = true -> entry_type e = Directory) ->
  ls_files FS (step st e) = ls_files FS st.
Proof.
  intro H. unfold step_entry, ls_log. destruct (in_scope _ _ _); simpl; [|reflexivity].
  rewrite (H eq_refl). destruct (fs_ensureDir _ _) as [? [?|]]; reflexivity.
Qed.

Lemma loop_files_no_file (st : LoopState FS) (es : list Entry) :
  (forall e, In e es -> in_scope prefix nsub (entry_path e) = true -> entry_type e = Directory) ->
  ls_files FS (loop st es) = ls_files FS st.
Proof.
  revert st; induction es as [|e es IH]; intros st H; simpl; [reflexivity|].
  rewrite IH by (intros; apply H; simpl; auto).
  apply step_files_no_file. intros; apply H; simpl; auto.
Qed.

Lemma step_success (st : LoopState FS) (e : Entry) :
  has_success (ls_trace FS (step st e)) = has_success (ls_trace FS st).
Proof.
  unfold has_success; case_step; rewrite ?existsb_app; simpl; rewrite ?orb_false_r; reflexivity.
Qed.

Lemma loop_success (st : LoopState FS) (es : list Entry) :
  has_success (ls_trace FS (loop st es)) = has_success (ls_trace FS st).
Proof.
  revert st; induction es as [|e es IH]; intro st; simpl; [reflexivity|].
  rewrite IH. apply step_success.
Qed.

Lemma existsb_none (f : Entry -> bool) (es : list Entry) :
  (forall e, In e es -> f e = false) -> existsb f es = false.
Proof.
  induction es as [|e es IH]; intro H; simpl; [reflexivity|].
  rewrite (H e (or_introl eq_refl)). apply IH. intros; apply H; right; auto.
Qed.

End LoopFacts.

Lemma target_guard_trace FS fs_stat fs_readdir out fs :
  fst (target_guard FS fs_stat fs_readdir out fs) = [EvStat out] \/
  fst (target_guard FS fs_stat fs_readdir out fs) = [EvStat out; EvReaddir out].
Proof.
  unfold target_guard. destruct (fs_stat out fs) as [[|]|]; simpl; auto.
Qed.

(** What [prepare] hands to the loop. *)
Lemma prepare_ready FS fs_stat fs_readdir fs_ensureDir fs_remove env fs repoUrl sub target cx :
  prepare FS fs_stat fs_readdir fs_ensureDir fs_remove env fs repoUrl sub target = Ready FS cx ->
  ls_files FS (cx_start FS cx) = 0 /\ ls_matched FS (cx_start FS cx) = false /\
  cx_out_dir FS cx = output_dir_of env sub target /\
  count_ok_writes (ls_trace FS (cx_start FS cx)) = 0 /\
  has_success (ls_trace FS (cx_start FS cx)) = false.
Proof.
  unfold prepare, after_download, outer_catch.
  repeat match goal with
         | |- context [match ?x with _ => _ end] => destruct x eqn:?
         end; intro H; try discriminate H.
  all: injection H as <-; simpl.
  repeat split; try reflexivity;
    unfold has_success; rewrite ?count_ok_writes_app, ?existsb_app;
    assert (Hl : l = [] \/ l = [EvFetch (metadata_url (owner a) (repo a))])
      by (destruct (branch a) as [b|]; [destruct (nonempty b)|];
          injection Heqp as _ <-; auto);
    pose proof (target_guard_trace FS fs_stat fs_readdir (output_dir_of env sub target) fs) as Hg;
    rewrite Heqp0 in Hg; simpl in Hg;
    destruct Hl as [-> | ->]; destruct Hg as [-> | ->]; reflexivity.
Qed.

(* ================================================================== *)
(** * Properties of the Streaming Filter-Extractor *)

(** C1: with the recorded path [prefix ++ rel], an entry is in scope iff
    [rel] is the normalized subfolder or starts with it followed by a
    slash; an out-of-scope entry is drained, and nothing else happens (the
    file system, [filesExtracted] and [matchedSomething] are unchanged).
    On the sample archive with subfolder [keep], the run creates
    exactly [/output/a.txt] and [/output/sub/b.txt] (and the directories
    [/output/sub] and the scratch directory), with [filesExtracted = 2] and
    [matchedSomething = true]. *)
Theorem C1_in_scope_filter :
  (forall (FS : Type) fs_ensureDir fs_writeFile prefix nsub out_dir
          (st : LoopState FS) ty content rel,
     let e := mkEntry (prefix ++ rel) ty content in
     (in_scope prefix nsub (entry_path e) = true <->
        rel = nsub \/ starts_with (nsub ++ "/") rel = true) /\
     (in_scope prefix nsub (entry_path e) = false ->
        step_entry FS fs_ensureDir fs_writeFile prefix nsub out_dir st e
        = ls_log FS st [EvDrain (entry_path e)])) /\
  (exists cx,
     ConcreteFS.prepareC (sample_env sample_entries) root_fs "o/repo#branch" "keep"
       (Some "/output") = Ready ConcreteFS.CFS cx /\
     cx_prefix _ cx = "repo-branch/" /\ cx_nsub _ cx = "keep" /\
     cx_out_dir _ cx = "/output" /\
     ls_files _ (ConcreteFS.loopC cx) = 2 /\
     ls_matched _ (ConcreteFS.loopC cx) = true /\
     let r := ConcreteFS.runC (sample_env sample_entries) root_fs "o/repo#branch" "keep"
                (Some "/output") in
     map fst (ConcreteFS.cfs_nodes (rr_fs _ r))
       = ["/output/sub/b.txt"; "/output/sub"; "/output/a.txt"; "/output";
          "/tmp/gh-folder-1700000000000"; "/"; "/work"; "/tmp"] /\
     ConcreteFS.lookup "/output/a.txt" (rr_fs _ r) = Some (ConcreteFS.NFile "A") /\
     ConcreteFS.lookup "/output/sub/b.txt" (rr_fs _ r) = Some (ConcreteFS.NFile "B") /\
     In (EvDrain "repo-branch/skip/c.txt") (rr_trace _ r) /\
     rr_exit _ r = None).
Proof.
  split.
  - intros FS ens wr prefix nsub out st ty content rel e. subst e.
    split.
    + unfold in_scope; simpl; rewrite replace_first_prefix; simpl.
      rewrite orb_true_iff, String.eqb_eq. tauto.
    + simpl. intro H. unfold step_entry. simpl. rewrite H. reflexivity.
  - eexists. split; [vm_compute; reflexivity|].
    vm_compute. repeat split; auto 20.
Qed.

(** C2: when the pre-loop stages succeed and no entry of the archive is in
    scope, the run ends by failing with [Subfolder "<sub>" not found in
    repo.], sets [process.exitCode = 1] and reports no success. *)
Theorem C2_no_match_fails FS fs_stat fs_readdir fs_ensureDir fs_writeFile fs_remove
    env fs repoUrl sub target cx :
  prepare FS fs_stat fs_readdir fs_ensureDir fs_remove env fs repoUrl sub target = Ready FS cx ->
  (forall e, In e (cx_entries FS cx) ->
             in_scope (cx_prefix FS cx) (cx_nsub FS cx) (entry_path e) = false) ->
  let r := downloadFolder FS fs_stat fs_readdir fs_ensureDir fs_writeFile fs_remove
             env fs repoUrl sub target in
  rr_exit FS r = Some 1 /\
  In (EvFail ("Subfolder " ++ dq ++ sub ++ dq ++ " not found in repo.")) (rr_trace FS r) /\
  has_success (rr_trace FS r) = false.
Proof.
  intros Hp Hnone r. subst r. unfold downloadFolder. rewrite Hp.
  destruct (prepare_ready _ _ _ _ _ _ _ _ _ _ _ Hp) as (_ & Hm & _ & _ & Hsucc).
  assert (Hl : ls_matched FS (run_loop FS fs_ensureDir fs_writeFile cx) = false).
  { unfold run_loop. rewrite loop_matched, Hm. simpl.
    apply existsb_none. exact Hnone. }
  unfold finish. rewrite Hl. simpl. split; [reflexivity|]. split.
  - apply in_or_app. right. left. reflexivity.
  - unfold has_success. rewrite existsb_app. simpl. rewrite orb_false_r.
    unfold run_loop. fold (has_success (ls_trace FS (extract_loop FS fs_ensureDir fs_writeFile
      (cx_prefix FS cx) (cx_nsub FS cx) (cx_out_dir FS cx) (cx_start FS cx) (cx_entries FS cx)))).
    rewrite loop_success. exact Hsucc.
Qed.

(** C3: a failing write of an in-scope file entry is caught: the entry's
    step records the failed call and a warning naming the entry and the
    error, [filesExtracted] is not incremented, and the loop goes on with
    the remaining entries from there.  Over any run of the loop from a
    fresh state, [filesExtracted] equals the number of successful file
    writes in the trace (directory entries issue no write). *)
Theorem C3_entry_failure_continues FS fs_ensureDir fs_writeFile prefix nsub out_dir
    (st0 : LoopState FS) es1 e es2 err :
  let st1 := extract_loop FS fs_ensureDir fs_writeFile prefix nsub out_dir st0 es1 in
  let lp := local_path prefix nsub out_dir (entry_path e) in
  in_scope prefix nsub (entry_path e) = true ->
  entry_type e = File ->
  snd (fs_ensureDir (path_dirname lp) (ls_fs FS st1)) = None ->
  snd (fs_writeFile lp (entry_content e) (fst (fs_ensureDir (path_dirname lp) (ls_fs FS st1))))
    = Some err ->
  let st2 := step_entry FS fs_ensureDir fs_writeFile prefix nsub out_dir st1 e in
  let final := extract_loop FS fs_ensureDir fs_writeFile prefix nsub out_dir st0
                 (es1 ++ e :: es2) in
  final = extract_loop FS fs_ensureDir fs_writeFile prefix nsub out_dir st2 es2 /\
  ls_files FS st2 = ls_files FS st1 /\
  ls_trace FS st2 = ls_trace FS st1 +++
    [EvEnsureDir (path_dirname lp) None; EvWrite lp (Some err); EvWarn (warn_msg e err)] /\
  (ls_files FS st0 = 0 -> count_ok_writes (ls_trace FS st0) = 0 ->
   ls_files FS final = count_ok_writes (ls_trace FS final)).
Proof.
  intros st1 lp Hin Hty Hd Hw st2 final.
  assert (Hst2 : st2 = mkLoopState FS
            (fst (fs_writeFile lp (entry_content e) (fst (fs_ensureDir (path_dirname lp) (ls_fs FS st1)))))
            (ls_files FS st1) true
            (ls_trace FS st1 +++
             [EvEnsureDir (path_dirname lp) None; EvWrite lp (Some err); EvWarn (warn_msg e err)])).
  { subst st2. unfold step_entry. rewrite Hin, Hty. fold lp.
    destruct (fs_ensureDir (path_dirname lp) (ls_fs FS st1)) as [fs1 r1]; simpl in *; subst r1.
    destruct (fs_writeFile lp (entry_content e) fs1) as [fs2 r2]; simpl in *; subst r2.
    rewrite <- !app_assoc. reflexivity. }
  split; [|split; [|split]].
  - subst final. rewrite loop_app. reflexivity.
  - rewrite Hst2. reflexivity.
  - rewrite Hst2. reflexivity.
  - intros H0 H1. pose proof (loop_files_writes FS fs_ensureDir fs_writeFile prefix nsub out_dir
                                st0 (es1 ++ e :: es2)) as Hinv.
    fold final in Hinv. lia.
Qed.

(** C9: when the pre-loop stages succeed, some entry is in scope and every
    in-scope entry is a directory, the run ends with the success report
    for 0 files and leaves [process.exitCode] unset. *)
Theorem C9_directories_only_success FS fs_stat fs_readdir fs_ensureDir fs_writeFile fs_remove
    env fs repoUrl sub target cx :
  prepare FS fs_stat fs_readdir fs_ensureDir fs_remove env fs repoUrl sub target = Ready FS cx ->
  (exists e, In e (cx_entries FS cx) /\
             in_scope (cx_prefix FS cx) (cx_nsub FS cx) (entry_path e) = true) ->
  (forall e, In e (cx_entries FS cx) ->
             in_scope (cx_prefix FS cx) (cx_nsub FS cx) (entry_path e) = true ->
             entry_type e = Directory) ->
  let r := downloadFolder FS fs_stat fs_readdir fs_ensureDir fs_writeFile fs_remove
             env fs repoUrl sub target in
  rr_exit FS r = None /\
  exists tr, rr_trace FS r = tr +++ [EvSucceed sub (output_dir_of env sub target) 0].
Proof.
  intros Hp [e0 [He0 Hs0]] Hdirs r. subst r. unfold downloadFolder. rewrite Hp.
  destruct (prepare_ready _ _ _ _ _ _ _ _ _ _ _ Hp) as (Hf & _ & Hout & _ & _).
  assert (Hm : ls_matched FS (run_loop FS fs_ensureDir fs_writeFile cx) = true).
  { unfold run_loop. rewrite loop_matched. apply orb_true_iff. right.
    apply existsb_exists. exists e0. auto. }
  assert (Hn : ls_files FS (run_loop FS fs_ensureDir fs_writeFile cx) = 0).
  { unfold run_loop. rewrite loop_files_no_file; auto. }
  unfold finish. rewrite Hm, Hn, Hout. simpl. split; [reflexivity|]. eexists. reflexivity.
Qed.

(* ------------------------------------------------------------------ *)
(** ** Witnesses at concrete inputs *)

Lemma C1_witness :
  step_entry ConcreteFS.CFS ConcreteFS.ensureDir ConcreteFS.writeFile "repo-branch/" "keep"
    "/output" (mkLoopState _ root_fs 0 false [])
    (mkEntry ("repo-branch/" ++ "skip/c.txt") File "C")
  = ls_log _ (mkLoopState _ root_fs 0 false []) [EvDrain "repo-branch/skip/c.txt"].
Proof.
  exact (proj2 (proj1 C1_in_scope_filter ConcreteFS.CFS ConcreteFS.ensureDir
                  ConcreteFS.writeFile "repo-branch/" "keep" "/output"
                  (mkLoopState _ root_fs 0 false []) File "C" "skip/c.txt") eq_refl).
Defined.

Lemma C2_witness :
  let r := downloadFolder ConcreteFS.CFS ConcreteFS.stat ConcreteFS.readdir ConcreteFS.ensureDir
             ConcreteFS.writeFile ConcreteFS.remove (sample_env sample_entries) root_fs
             "o/repo#branch" "nothere" (Some "/output") in
  rr_exit _ r = Some 1 /\
  In (EvFail ("Subfolder " ++ dq ++ "nothere" ++ dq ++ " not found in repo.")) (rr_trace _ r) /\
  has_success (rr_trace _ r) = false.
Proof.
  eapply (C2_no_match_fails ConcreteFS.CFS ConcreteFS.stat ConcreteFS.readdir
            ConcreteFS.ensureDir ConcreteFS.writeFile ConcreteFS.remove
            (sample_env sample_entries) root_fs "o/repo#branch" "nothere" (Some "/output")).
  - reflexivity.
  - intros e He. simpl in He.
    destruct He as [<-|[<-|[<-|[<-|[]]]]]; reflexivity.
Defined.

Lemma C3_witness :
  let final := extract_loop ConcreteFS.CFS ConcreteFS.ensureDir ConcreteFS.writeFile
                 "repo-branch/" "keep" "/output" (mkLoopState _ denied_fs 0 false [])
                 ([mkEntry "repo-branch/" Directory EmptyString] ++
                  mkEntry "repo-branch/keep/a.txt" File "A" ::
                  [mkEntry "repo-branch/keep/sub/b.txt" File "B"]) in
  ls_files _ final = count_ok_writes (ls_trace _ final).
Proof.
  exact (proj2 (proj2 (proj2
    (C3_entry_failure_continues ConcreteFS.CFS ConcreteFS.ensureDir ConcreteFS.writeFile
       "repo-branch/" "keep" "/output" (mkLoopState _ denied_fs 0 false [])
       [mkEntry "repo-branch/" Directory EmptyString]
       (mkEntry "repo-branch/keep/a.txt" File "A")
       [mkEntry "repo-branch/keep/sub/b.txt" File "B"]
       (ConcreteFS.err "EACCES" "/output/a.txt") eq_refl eq_refl eq_refl eq_refl)))
    eq_refl eq_refl).
Defined.

Lemma C9_witness :
  let r := downloadFolder ConcreteFS.CFS ConcreteFS.stat ConcreteFS.readdir ConcreteFS.ensureDir
             ConcreteFS.writeFile ConcreteFS.remove (sample_env sample_dirs_only) root_fs
             "o/repo#branch" "keep" (Some "/output") in
  rr_exit _ r = None /\
  exists tr, rr_trace _ r = tr +++ [EvSucceed "keep" (output_dir_of (sample_env sample_dirs_only)
                                                      "keep" (Some "/output")) 0].
Proof.
  eapply (C9_directories_only_success ConcreteFS.CFS ConcreteFS.stat ConcreteFS.readdir
            ConcreteFS.ensureDir ConcreteFS.writeFile ConcreteFS.remove
            (sample_env sample_dirs_only) root_fs "o/repo#branch" "keep" (Some "/output")).
  - reflexivity.
  - exists (mkEntry "repo-branch/keep/" Directory EmptyString). split; [simpl; auto | reflexivity].
  - intros e He. simpl in He.
    destruct He as [<-|[<-|[<-|[<-|[]]]]]; try reflexivity; discriminate.
Defined.

(* ================================================================== *)
(** * Destinations, the Target Guard and the non-empty target *)

Lemma string_app_assoc (a b c : string) : (a ++ b) ++ c = a ++ (b ++ c).
Proof. induction a; simpl; congruence. Qed.

Lemma string_app_nil (a : string) : a ++ EmptyString = a.
Proof. induction a; simpl; congruence. Qed.

Lemma string_length_app (a b : string) :
  String.length (a ++ b) = String.length a + String.length b.
Proof. induction a; simpl; congruence. Qed.

Lemma prefix_length (p s : string) :
  String.prefix p s = true -> String.length p <= String.length s.
Proof.
  revert s; induction p as [|c p IH]; intros s H; simpl; [lia|].
  destruct s as [|d s]; simpl in H; [discriminate|].
  destruct (ascii_dec c d); [|discriminate]. simpl. apply le_n_S, IH, H.
Qed.

Lemma replace_first_short (pat rep s : string) :
  String.length s < String.length pat -> replace_first pat rep s = s.
Proof.
  induction s as [|c s IH]; intro H.
  - destruct pat; simpl in *; [inversion H | reflexivity].
  - change (replace_first pat rep (String c s)) with
      (if String.prefix pat (String c s) then rep ++ drop (String.length pat) (String c s)
       else String c (replace_first pat rep s)).
    destruct (String.prefix pat (String c s)) eqn:Hp.
    + apply prefix_length in Hp. simpl in Hp, H. lia.
    + rewrite IH by (simpl in H; lia). reflexivity.
Qed.

(** C4 (amended): the destination is [path.join(outputDir, rest)] for a
    repo-relative path [nsub/rest]; for the directory entry [nsub/] that is
    [path.join(outputDir, '')], the output directory itself; but a path
    equal to [nsub] has no [nsub/] to remove, so its destination is
    [path.join(outputDir, nsub)]. *)
Theorem C4_destination (prefix nsub out_dir rest : string) :
  local_path prefix nsub out_dir (prefix ++ nsub ++ "/" ++ rest) = path_join out_dir rest /\
  local_path prefix nsub out_dir (prefix ++ nsub ++ "/") = path_join out_dir EmptyString /\
  local_path prefix nsub out_dir (prefix ++ nsub) = path_join out_dir nsub.
Proof.
  unfold local_path. rewrite !replace_first_prefix.
  assert (He : forall x, EmptyString ++ x = x) by reflexivity. rewrite !He.
  split; [|split].
  - rewrite <- string_app_assoc, replace_first_prefix. reflexivity.
  - transitivity (path_join out_dir
                    (replace_first (nsub ++ "/") EmptyString ((nsub ++ "/") ++ EmptyString))).
    + rewrite string_app_nil. reflexivity.
    + rewrite replace_first_prefix. reflexivity.
  - rewrite replace_first_short; [reflexivity|].
    rewrite string_length_app. simpl. lia.
Qed.

(** C4: a file entry whose repo-relative path is the subfolder itself
    ([keep]) is in scope and written to [/output/keep], not to the output
    root [/output]. *)
Lemma C4_counterexample :
  in_scope "repo-branch/" "keep" "repo-branch/keep" = true /\
  local_path "repo-branch/" "keep" "/output" "repo-branch/keep" = "/output/keep" /\
  ls_trace _ (step_entry ConcreteFS.CFS ConcreteFS.ensureDir ConcreteFS.writeFile
                "repo-branch/" "keep" "/output"
                (mkLoopState _ (ConcreteFS.mkCFS [("/", ConcreteFS.NDir); ("/output", ConcreteFS.NDir)] [])
                   0 false [])
                (mkEntry "repo-branch/keep" File "K"))
    = [EvEnsureDir "/output" None; EvWrite "/output/keep" None] /\
  path_join "/output" EmptyString = "/output" /\
  "/output/keep" <> "/output".
Proof.
  split; [reflexivity|]. split; [reflexivity|]. split; [vm_compute; reflexivity|].
  split; [reflexivity | discriminate].
Qed.

(** C5: the probe's verdict is "exists as a file" for a regular file,
    "not empty" for a directory with an entry, "proceed" for an empty
    directory and for a not-found error of [stat] or [readdir], and a
    probe error carrying [err.message] for any other error.  Each failing
    verdict ends the run right there with its message, [exitCode = 1] and
    the file system untouched; a "proceed" verdict leads to the creation
    of the output directory as the last call before the loop. *)
Theorem C5_target_guard FS fs_stat fs_readdir fs_ensureDir fs_remove
    env fs sub target temp prefix entries tr1 :
  let out := output_dir_of env sub target in
  let gtr := fst (target_guard FS fs_stat fs_readdir out fs) in
  let v := snd (target_guard FS fs_stat fs_readdir out fs) in
  let ad := after_download FS fs_stat fs_readdir fs_ensureDir fs_remove
              env fs sub target temp prefix entries tr1 in
  (fs_stat out fs = Stat true -> v = GuardIsFile) /\
  (forall n ns, fs_stat out fs = Stat false -> fs_readdir out fs = Readdir (n :: ns) ->
                v = GuardNotEmpty) /\
  (fs_stat out fs = Stat false -> fs_readdir out fs = Readdir [] -> v = GuardProceed) /\
  (forall e, fs_stat out fs = StatFailed e \/
             (fs_stat out fs = Stat false /\ fs_readdir out fs = ReaddirFailed e) ->
     if String.eqb (err_code e) "ENOENT" then v = GuardProceed
     else v = GuardProbeError (err_message e)) /\
  (v = GuardIsFile ->
     ad = Finished FS (mkRunResult FS fs ((tr1 +++ gtr) +++ [EvFail ("Target " ++ out ++
            " exists as a file. Please remove it or choose another name.")]) (Some 1))) /\
  (v = GuardNotEmpty ->
     ad = Finished FS (mkRunResult FS fs ((tr1 +++ gtr) +++ [EvFail ("Directory " ++ out ++
            " already exists and is not empty.")]) (Some 1))) /\
  (forall m, v = GuardProbeError m ->
     ad = Finished FS (mkRunResult FS fs ((tr1 +++ gtr) +++
            [EvFail ("Error checking target path: " ++ m)]) (Some 1))) /\
  (forall cx, ad = Ready FS cx ->
     v = GuardProceed /\ cx_out_dir FS cx = out /\
     exists tr, ls_trace FS (cx_start FS cx) = tr +++ [EvEnsureDir out None]).
Proof.
  intros out gtr v ad.
  split; [|split; [|split; [|split; [|split; [|split; [|split]]]]]].
  - intro H. subst v. unfold target_guard. rewrite H. reflexivity.
  - intros n ns H1 H2. subst v. unfold target_guard. rewrite H1, H2. reflexivity.
  - intros H1 H2. subst v. unfold target_guard. rewrite H1, H2. reflexivity.
  - intros e [H | [H1 H2]]; subst v; unfold target_guard;
      [rewrite H | rewrite H1, H2]; simpl; destruct (String.eqb _ _); reflexivity.
  - intro H. subst ad gtr v. unfold after_download. fold out.
    destruct (target_guard FS fs_stat fs_readdir out fs) as [g w]. simpl in H. subst w.
    reflexivity.
  - intro H. subst ad gtr v. unfold after_download. fold out.
    destruct (target_guard FS fs_stat fs_readdir out fs) as [g w]. simpl in H. subst w.
    reflexivity.
  - intros m H. subst ad gtr v. unfold after_download. fold out.
    destruct (target_guard FS fs_stat fs_readdir out fs) as [g w]. simpl in H. subst w.
    reflexivity.
  - intros cx H. subst ad gtr v. unfold after_download in H. fold out in H.
    destruct (target_guard FS fs_stat fs_readdir out fs) as [g w]. simpl.
    destruct w; try discriminate H.
    destruct (fs_ensureDir temp fs) as [fs1 [r1|]]; [discriminate H|].
    destruct (fs_ensureDir out fs1) as [fs2 [r2|]]; [discriminate H|].
    injection H as <-. simpl. split; [reflexivity|]. split; [reflexivity|].
    eexists. reflexivity.
Qed.

Lemma C5_witness :
  snd (target_guard ConcreteFS.CFS ConcreteFS.stat ConcreteFS.readdir
         (output_dir_of (sample_env sample_entries) "keep" (Some "/work")) busy_fs)
  = GuardNotEmpty.
Proof.
  exact (proj1 (proj2 (C5_target_guard ConcreteFS.CFS ConcreteFS.stat ConcreteFS.readdir
           ConcreteFS.ensureDir ConcreteFS.remove (sample_env sample_entries) busy_fs "keep"
           (Some "/work") "/tmp/x" "repo-branch/" [] []))
           "notes.txt" [] eq_refl eq_refl).
Defined.

(** The runs whose ZIP request failed, in the proof of C6. *)
Ltac zip_failed Hl :=
  simpl; split; [reflexivity|]; split;
  [ unfold has_extraction_call; rewrite !existsb_app; destruct Hl as [-> | ->]; reflexivity
  | split; [ let H := fresh in
             intro H; exfalso; apply in_app_or in H;
             destruct H as [H|[H|[H|[]]]]; try discriminate H;
             apply in_app_or in H; destruct H as [H|[H|[]]]; try discriminate H;
             destruct Hl as [-> | ->]; simpl in H; [contradiction|];
             destruct H as [H|[]]; discriminate H
           | right; reflexivity ] ].

(** C6, counterexample: with the output directory [/tmp] (the system's
    temporary directory), non-empty because it holds [gh-folder-<now>], a
    run whose ZIP request fails deletes that entry and the file below it:
    the catch removes [tempDir] although the run never created it. *)
Lemma C6_counterexample :
  output_dir_of (sample_env sample_entries) "keep" (Some "/tmp") = "/tmp" /\
  ConcreteFS.stat "/tmp" tmp_busy_fs = Stat false /\
  ConcreteFS.readdir "/tmp" tmp_busy_fs = Readdir ["gh-folder-1700000000000"] /\
  temp_dir_of (sample_env sample_entries) = "/tmp/gh-folder-1700000000000" /\
  ConcreteFS.lookup "/tmp/gh-folder-1700000000000/data.txt" tmp_busy_fs
    = Some (ConcreteFS.NFile "d") /\
  ConcreteFS.lookup "/tmp/gh-folder-1700000000000"
    (rr_fs _ (ConcreteFS.runC (sample_env sample_entries) tmp_busy_fs
                "o/repo#other" "keep" (Some "/tmp"))) = None /\
  ConcreteFS.lookup "/tmp/gh-folder-1700000000000/data.txt"
    (rr_fs _ (ConcreteFS.runC (sample_env sample_entries) tmp_busy_fs
                "o/repo#other" "keep" (Some "/tmp"))) = None /\
  rr_exit _ (ConcreteFS.runC (sample_env sample_entries) tmp_busy_fs
               "o/repo#other" "keep" (Some "/tmp")) = Some 1.
Proof.
  repeat split; vm_compute; reflexivity.
Qed.

(** C6 (amended): when the output path is an existing directory with at least one
    entry, the run fails with [exitCode = 1] and issues no call of the
    extraction phase (no [ensureDir], no write, no drain).  If the run gets
    as far as probing the output path, the file system is left exactly as
    it was and the "not empty" failure is reported; otherwise (the ZIP
    request failed) the only change is the best-effort removal of the
    run's scratch path [os.tmpdir()/gh-folder-<now>], which the run never
    created. *)
Theorem C6_nonempty_target_untouched FS fs_stat fs_readdir fs_ensureDir fs_writeFile fs_remove
    env fs repoUrl sub target n ns :
  let out := output_dir_of env sub target in
  fs_stat out fs = Stat false ->
  fs_readdir out fs = Readdir (n :: ns) ->
  let r := downloadFolder FS fs_stat fs_readdir fs_ensureDir fs_writeFile fs_remove
             env fs repoUrl sub target in
  rr_exit FS r = Some 1 /\
  has_extraction_call (rr_trace FS r) = false /\
  (In (EvStat out) (rr_trace FS r) ->
     rr_fs FS r = fs /\
     In (EvFail ("Directory " ++ out ++ " already exists and is not empty.")) (rr_trace FS r)) /\
  (rr_fs FS r = fs \/ rr_fs FS r = fs_remove (temp_dir_of env) fs).
Proof.
  intros out Hs Hr r. subst r.
  assert (Had : forall temp prefix entries tr1,
    after_download FS fs_stat fs_readdir fs_ensureDir fs_remove env fs sub target
      temp prefix entries tr1
    = Finished FS (mkRunResult FS fs ((tr1 +++ [EvStat out; EvReaddir out]) +++
        [EvFail ("Directory " ++ out ++ " already exists and is not empty.")]) (Some 1))).
  { intros. unfold after_download. fold out. unfold target_guard. rewrite Hs, Hr. reflexivity. }
  unfold downloadFolder, prepare.
  destruct (parseGitHubUrl repoUrl) as [rf|m].
  2:{ simpl. split; [reflexivity|]. split; [reflexivity|].
      split; [intros [H|[]]; discriminate H | left; reflexivity]. }
  set (br := match branch rf with
             | Some b => if nonempty b then (RespOk b, [])
                         else (env_metadata env (owner rf) (repo rf),
                               [EvFetch (metadata_url (owner rf) (repo rf))])
             | None => (env_metadata env (owner rf) (repo rf),
                        [EvFetch (metadata_url (owner rf) (repo rf))])
             end).
  assert (Hl : snd br = [] \/ snd br = [EvFetch (metadata_url (owner rf) (repo rf))]).
  { subst br. destruct (branch rf) as [b|]; [destruct (nonempty b)|]; simpl; auto. }
  destruct br as [resp l]. simpl in Hl.
  destruct resp as [fb|st|m].
  - destruct (env_zip env (zip_url (owner rf) (repo rf) fb)) as [[entries|]|st|m].
    + rewrite Had. simpl.
      split; [reflexivity|]. split.
      * unfold has_extraction_call. rewrite !existsb_app.
        destruct Hl as [-> | ->]; reflexivity.
      * split; [|left; reflexivity]. intros _. split; [reflexivity|].
        apply in_or_app. right. left. reflexivity.
    + zip_failed Hl.
    + zip_failed Hl.
    + zip_failed Hl.
  - simpl. split; [reflexivity|]. split.
    + unfold has_extraction_call. rewrite !existsb_app. destruct Hl as [-> | ->]; reflexivity.
    + split; [|left; reflexivity]. intro H. exfalso. apply in_app_or in H.
      destruct H as [H|[H|[]]]; [|discriminate H].
      destruct Hl as [-> | ->]; simpl in H; [contradiction|]. destruct H as [H|[]]; discriminate H.
  - simpl. split; [reflexivity|]. split.
    + unfold has_extraction_call. rewrite !existsb_app. destruct Hl as [-> | ->]; reflexivity.
    + split; [|left; reflexivity]. intro H. exfalso. apply in_app_or in H.
      destruct H as [H|[H|[]]]; [|discriminate H].
      destruct Hl as [-> | ->]; simpl in H; [contradiction|]. destruct H as [H|[]]; discriminate H.
Qed.

Lemma C6_witness :
  rr_exit _ (downloadFolder ConcreteFS.CFS ConcreteFS.stat ConcreteFS.readdir ConcreteFS.ensureDir
               ConcreteFS.writeFile ConcreteFS.remove (sample_env sample_entries) busy_fs
               "o/repo#branch" "keep" (Some "/work")) = Some 1.
Proof.
  exact (proj1 (C6_nonempty_target_untouched ConcreteFS.CFS ConcreteFS.stat ConcreteFS.readdir
                  ConcreteFS.ensureDir ConcreteFS.writeFile ConcreteFS.remove
                  (sample_env sample_entries) busy_fs "o/repo#branch" "keep" (Some "/work")
                  "notes.txt" [] eq_refl eq_refl)).
Defined.

(* ================================================================== *)
(** * The Reference Parser *)

Lemma span_until_app (d : ascii) (a r : string) :
  no_char d a = true -> span_until d (a ++ String d r) = (a, String d r).
Proof.
  induction a as [|c a IH]; simpl; intro H.
  - rewrite Ascii.eqb_refl. reflexivity.
  - apply andb_true_iff in H as [H1 H2]. apply negb_true_iff in H1.
    rewrite H1, IH by exact H2. reflexivity.
Qed.

Lemma span_until_none (d : ascii) (a : string) :
  no_char d a = true -> span_until d a = (a, EmptyString).
Proof.
  induction a as [|c a IH]; simpl; intro H; [reflexivity|].
  apply andb_true_iff in H as [H1 H2]. apply negb_true_iff in H1.
  rewrite H1, IH by exact H2. reflexivity.
Qed.

Lemma span_class_app (f : ascii -> bool) (a : string) (c : ascii) (r : string) :
  str_forall f a = true -> f c = false -> span_class f (a ++ String c r) = (a, String c r).
Proof.
  intros Ha Hc. induction a as [|x a IH]; simpl in *.
  - rewrite Hc. reflexivity.
  - apply andb_true_iff in Ha as [H1 H2]. rewrite H1, IH by exact H2. reflexivity.
Qed.

Lemma span_class_all (f : ascii -> bool) (a : string) :
  str_forall f a = true -> span_class f a = (a, EmptyString).
Proof.
  induction a as [|x a IH]; simpl; intro H; [reflexivity|].
  apply andb_true_iff in H as [H1 H2]. rewrite H1, IH by exact H2. reflexivity.
Qed.

(** A tree URL is recognised by [treeUrlRegex] with its four groups. *)
Lemma tree_match_url (o r b sf : string) :
  nonempty o = true -> no_char "/" o = true ->
  nonempty r = true -> no_char "/" r = true ->
  nonempty b = true -> no_char "/" b = true ->
  nonempty sf = true -> no_line_terminator sf = true ->
  tree_match ("https://github.com/" ++ o ++ "/" ++ r ++ "/tree/" ++ b ++ "/" ++ sf)
  = Some (o, r, b, sf).
Proof.
  intros Ho1 Ho2 Hr1 Hr2 Hb1 Hb2 Hs1 Hs2. unfold tree_match.
  rewrite prefix_app.
  change 19 with (String.length "https://github.com/"). rewrite drop_app.
  change ("/" ++ r ++ "/tree/" ++ b ++ "/" ++ sf)
    with (String "/" (r ++ "/tree/" ++ b ++ "/" ++ sf)).
  rewrite span_until_app by exact Ho2. rewrite Ho1.
  change ("/tree/" ++ b ++ "/" ++ sf) with (String "/" ("tree/" ++ b ++ "/" ++ sf)).
  rewrite span_until_app by exact Hr2. rewrite Hr1, prefix_app. simpl andb.
  change 5 with (String.length "tree/"). rewrite drop_app.
  change ("/" ++ sf) with (String "/" sf).
  rewrite span_until_app by exact Hb2. rewrite Hb1, Hs1, Hs2. reflexivity.
Qed.

(** A shorthand [owner/repo] or [owner/repo#branch] is recognised by
    [shorthandRegex]. *)
Lemma shorthand_match_form (o r : string) (b : option string) :
  nonempty o = true -> str_forall is_shorthand_char o = true ->
  nonempty r = true -> str_forall is_shorthand_char r = true ->
  match b with Some t => nonempty t && no_line_terminator t = true | None => True end ->
  shorthand_match (o ++ "/" ++ r ++ hash_part b) = Some (o, r, b).
Proof.
  intros Ho1 Ho2 Hr1 Hr2 Hb. unfold shorthand_match.
  change ("/" ++ r ++ hash_part b) with (String "/" (r ++ hash_part b)).
  rewrite span_class_app by (exact Ho2 || reflexivity). rewrite Ho1. simpl andb.
  destruct b as [t|]; simpl hash_part.
  - change ("#" ++ t) with (String "#" t).
    rewrite span_class_app by (exact Hr2 || reflexivity). rewrite Hr1.
    apply andb_true_iff in Hb as [Ht1 Ht2]. simpl. rewrite Ht1, Ht2. reflexivity.
  - rewrite string_app_nil, span_class_all by exact Hr2. rewrite Hr1. reflexivity.
Qed.

Lemma tree_match_prefix (s : string) x :
  tree_match s = Some x -> String.prefix "https://github.com/" s = true.
Proof. unfold tree_match. destruct (String.prefix _ s); [reflexivity | discriminate]. Qed.

Lemma span_class_prefix (f : ascii -> bool) (p s p1 : string) (c : ascii) (p2 : string) :
  String.prefix p s = true -> span_class f p = (p1, String c p2) ->
  exists s2, span_class f s = (p1, String c s2).
Proof.
  revert s p1; induction p as [|x p IH]; intros s p1 Hp Hs; simpl in Hs.
  - discriminate Hs.
  - destruct s as [|y s]; simpl in Hp; [discriminate Hp|].
    destruct (ascii_dec x y) as [<-|]; [|discriminate Hp].
    simpl. destruct (f x).
    + revert Hs. case_eq (span_class f p). intros a b Ha Hs. injection Hs as <- ->.
      destruct (IH s a Hp Ha) as [s2 Hs2]. rewrite Hs2. eauto.
    + injection Hs as <- <- <-. eauto.
Qed.

(** An input starting with a run of [\w.-] characters and a slash is no
    tree URL (which has a colon after [https]). *)
Lemma tree_match_shorthand (o t : string) :
  str_forall is_shorthand_char o = true -> tree_match (o ++ String "/" t) = None.
Proof.
  intro Ho. destruct (tree_match (o ++ String "/" t)) eqn:Ht; [|reflexivity].
  apply tree_match_prefix in Ht.
  destruct (span_class_prefix is_shorthand_char _ _ "https" ":" "//github.com/" Ht eq_refl)
    as [s2 Hs2].
  rewrite span_class_app in Hs2 by (exact Ho || reflexivity).
  discriminate Hs2.
Qed.

Lemma parse_shorthand (o r : string) (b : option string) :
  nonempty o = true -> str_forall is_shorthand_char o = true ->
  nonempty r = true -> str_forall is_shorthand_char r = true ->
  match b with Some t => nonempty t && no_line_terminator t = true | None => True end ->
  parseGitHubUrl (o ++ "/" ++ r ++ hash_part b) = Ok (mkRepoRef o r b None).
Proof.
  intros Ho1 Ho2 Hr1 Hr2 Hb. unfold parseGitHubUrl.
  change ("/" ++ r ++ hash_part b) with (String "/" (r ++ hash_part b)).
  rewrite tree_match_shorthand by exact Ho2.
  change (String "/" (r ++ hash_part b)) with ("/" ++ r ++ hash_part b).
  rewrite shorthand_match_form by assumption. reflexivity.
Qed.

(* ------------------------------------------------------------------ *)
(** ** The generic pattern *)

Lemma hash_tail_part (b : option string) :
  branch_ok b = true -> hash_tail (hash_part b) = Some b.
Proof.
  destruct b as [t|]; simpl; intro H; [|reflexivity].
  change ("#" ++ t) with (String "#" t). simpl. rewrite H. reflexivity.
Qed.

Lemma git_hash_tail_suffix (git : bool) (b : option string) :
  branch_ok b = true -> git_hash_tail (repo_suffix git b) = Some b.
Proof.
  intro Hb. unfold git_hash_tail, repo_suffix. destruct git.
  - change (".git" ++ hash_part b) with (".git" ++ hash_part b).
    rewrite prefix_app. change 4 with (String.length ".git"). rewrite drop_app.
    rewrite hash_tail_part by exact Hb. reflexivity.
  - destruct b as [t|]; simpl in *; [rewrite Hb|]; reflexivity.
Qed.

Lemma prefix_cons (a c : ascii) (p x : string) :
  String.prefix (String a p) (String c x) = true -> a = c /\ String.prefix p x = true.
Proof. simpl. destruct (ascii_dec a c); [auto | discriminate]. Qed.

(** For a non-empty rest [r'] of the repo name (no [#], not ending in
    [.git]), the tail [(?:\.git)?(?:#(.+))?$] fails. *)
Lemma git_hash_tail_inner (r' : string) (git : bool) (b : option string) :
  nonempty r' = true -> no_char "#" r' = true -> ~ ends_with_git r' ->
  git_hash_tail (r' ++ repo_suffix git b) = None.
Proof.
  intros Hn Hh Hg. unfold git_hash_tail.
  assert (Hht : forall x, nonempty x = true -> no_char "#" x = true ->
                          hash_tail (x ++ repo_suffix git b) = None).
  { intros [|c x] H1 H2; [discriminate|]. simpl in H2.
    apply andb_true_iff in H2 as [H2 _]. apply negb_true_iff in H2.
    simpl. rewrite H2. reflexivity. }
  rewrite (Hht r' Hn Hh).
  destruct (String.prefix ".git" (r' ++ repo_suffix git b)) eqn:Hp; [|reflexivity].
  destruct r' as [|c1 r1]; [discriminate|]. cbn [String.append] in Hp.
  apply prefix_cons in Hp as [<- Hp].
  destruct r1 as [|c2 r2]; [destruct git, b; discriminate|]. cbn [String.append] in Hp.
  apply prefix_cons in Hp as [<- Hp].
  destruct r2 as [|c3 r3]; [destruct git, b; discriminate|]. cbn [String.append] in Hp.
  apply prefix_cons in Hp as [<- Hp].
  destruct r3 as [|c4 r4]; [destruct git, b; discriminate|]. cbn [String.append] in Hp.
  apply prefix_cons in Hp as [<- _].
  destruct r4 as [|c5 r5].
  - exfalso. apply Hg. exists EmptyString. reflexivity.
  - cbn [String.append drop].
    change (String c5 (r5 ++ repo_suffix git b)) with (String c5 r5 ++ repo_suffix git b).
    rewrite Hht; [reflexivity | reflexivity |].
    simpl in Hh |- *. exact Hh.
Qed.

(** The lazy repo group stops exactly at the end of the repo name. *)
Lemma repo_loop_name (acc r : string) (git : bool) (b : option string) :
  nonempty r = true -> no_line_terminator r = true -> no_char "#" r = true ->
  ~ ends_with_git r -> branch_ok b = true ->
  repo_loop acc (r ++ repo_suffix git b) = Some (acc ++ r, b).
Proof.
  revert acc. induction r as [|c r IH]; intros acc Hn Hl Hh Hg Hb; [discriminate|].
  simpl in Hl, Hh. apply andb_true_iff in Hl as [Hl1 Hl2]. apply andb_true_iff in Hh as [Hh1 Hh2].
  apply negb_true_iff in Hl1. simpl. rewrite Hl1.
  destruct r as [|c' r'].
  - simpl. rewrite git_hash_tail_suffix by exact Hb. reflexivity.
  - rewrite git_hash_tail_inner; [| reflexivity | exact Hh2 |].
    + rewrite IH; [| reflexivity | exact Hl2 | exact Hh2 | | exact Hb].
      * rewrite string_app_assoc. reflexivity.
      * intros [u Hu]. apply Hg. exists (String c u). rewrite Hu. reflexivity.
    + intros [u Hu]. apply Hg. exists (String c u). rewrite Hu. reflexivity.
Qed.

(** The lazy owner group stops at the first slash. *)
Lemma owner_loop_name (acc o u : string) res :
  nonempty o = true -> no_line_terminator o = true -> no_char "/" o = true ->
  repo_loop EmptyString u = Some res ->
  owner_loop acc (o ++ String "/" u) = Some (acc ++ o, fst res, snd res).
Proof.
  revert acc. induction o as [|c o IH]; intros acc Hn Hl Hs Hu; [discriminate|].
  simpl in Hl, Hs. apply andb_true_iff in Hl as [Hl1 Hl2]. apply andb_true_iff in Hs as [Hs1 Hs2].
  apply negb_true_iff in Hl1.
  destruct o as [|c' o'].
  - simpl. rewrite Hl1, Hu. destruct res. reflexivity.
  - pose proof Hs2 as Hs3. simpl in Hs3.
    apply andb_true_iff in Hs3 as [Hs3 _]. apply negb_true_iff in Hs3.
    change (owner_loop acc (String c (String c' o') ++ String "/" u)) with
      (if is_line_terminator c then None
       else match (if Ascii.eqb c' "/" then repo_loop EmptyString (o' ++ String "/" u) else None) with
            | Some (r, b) => Some (acc ++ String c EmptyString, r, b)
            | None => owner_loop (acc ++ String c EmptyString) (String c' o' ++ String "/" u)
            end).
    rewrite Hl1, Hs3.
    rewrite IH; [| reflexivity | exact Hl2 | |exact Hu].
    + rewrite string_app_assoc. reflexivity.
    + exact Hs2.
Qed.

Lemma generic_match_skip (p x : string) :
  (forall i, i < String.length p -> String.prefix "github.com/" (drop i (p ++ x)) = false) ->
  generic_match (p ++ x) = generic_match x.
Proof.
  induction p as [|c p IH]; intro H; [reflexivity|].
  pose proof (H 0 ltac:(simpl; lia)) as H0. cbn [drop String.append] in H0.
  cbn [String.append].
  change (generic_match (String c (p ++ x))) with
    (match generic_at (String c (p ++ x)) with
     | Some m => Some m | None => generic_match (p ++ x) end).
  unfold generic_at at 1. rewrite H0. apply IH.
  intros i Hi. specialize (H (S i) ltac:(simpl; lia)). exact H.
Qed.

Lemma generic_match_at (s : string) m :
  generic_at s = Some m -> generic_match s = Some m.
Proof.
  intro H. destruct s as [|c s]; [exact H|].
  change (generic_match (String c s)) with
    (match generic_at (String c s) with Some m => Some m | None => generic_match s end).
  rewrite H. reflexivity.
Qed.

(** At an occurrence of [github.com/owner/repo(.git)?(#branch)?] the
    generic pattern returns that owner, repo and branch. *)
Lemma generic_match_here (o r : string) (git : bool) (b : option string) :
  nonempty o = true -> no_line_terminator o = true -> no_char "/" o = true ->
  nonempty r = true -> no_line_terminator r = true -> no_char "#" r = true ->
  ~ ends_with_git r -> branch_ok b = true ->
  generic_match ("github.com/" ++ o ++ "/" ++ r ++ repo_suffix git b) = Some (o, r, b).
Proof.
  intros Ho1 Ho2 Ho3 Hr1 Hr2 Hr3 Hr4 Hb. apply generic_match_at. unfold generic_at.
  rewrite prefix_app. change 11 with (String.length "github.com/"). rewrite drop_app.
  change ("/" ++ r ++ repo_suffix git b) with (String "/" (r ++ repo_suffix git b)).
  rewrite (owner_loop_name EmptyString o (r ++ repo_suffix git b) (r, b)); try assumption.
  - reflexivity.
  - apply repo_loop_name; assumption.
Qed.

Lemma span_class_split (f : ascii -> bool) (s a r : string) :
  span_class f s = (a, r) -> s = a ++ r /\ str_forall f a = true.
Proof.
  revert a r. induction s as [|c s IH]; intros a r H; simpl in H.
  - injection H as <- <-. split; reflexivity.
  - destruct (f c) eqn:Hc.
    + destruct (span_class f s) as [a' r'] eqn:E. injection H as <- <-.
      destruct (IH a' r' eq_refl) as [-> Ha]. simpl. rewrite Hc, Ha. split; reflexivity.
    + injection H as <- <-. split; reflexivity.
Qed.

Lemma shorthand_char_special (c : ascii) :
  is_shorthand_char c = true -> Ascii.eqb c "#" = false /\ Ascii.eqb c "/" = false.
Proof.
  intro H. destruct c as [[] [] [] [] [] [] [] []];
    cbv in H |- *; first [split; reflexivity | discriminate H].
Qed.

Lemma slashes_class (a r : string) :
  str_forall is_shorthand_char a = true ->
  slashes_before_hash (a ++ r) = slashes_before_hash r.
Proof.
  induction a as [|c a IH]; intro H; [reflexivity|].
  simpl in H. apply andb_true_iff in H as [H1 H2].
  destruct (shorthand_char_special c H1) as [E1 E2].
  simpl. rewrite E1, E2. apply IH, H2.
Qed.

Lemma shorthand_slashes (s : string) m :
  shorthand_match s = Some m -> slashes_before_hash s = 1.
Proof.
  unfold shorthand_match. destruct (span_class is_shorthand_char s) as [g1 r1] eqn:E1.
  apply span_class_split in E1 as [-> Hg1].
  destruct r1 as [|c t1]; [discriminate|].
  destruct (nonempty g1 && Ascii.eqb c "/") eqn:Hc; [|discriminate].
  apply andb_true_iff in Hc as [_ Hc]. apply Ascii.eqb_eq in Hc. subst c.
  destruct (span_class is_shorthand_char t1) as [g2 r2] eqn:E2.
  apply span_class_split in E2 as [-> Hg2].
  rewrite slashes_class by exact Hg1. simpl. rewrite slashes_class by exact Hg2.
  destruct r2 as [|h t]; [reflexivity|].
  destruct (nonempty g2 && Ascii.eqb h "#" && nonempty t && no_line_terminator t) eqn:Hh;
    [|discriminate].
  rewrite !andb_true_iff in Hh. destruct Hh as [[[_ Hh] _] _].
  intros _. simpl. rewrite Hh. reflexivity.
Qed.

Lemma slashes_app_nohash (p x : string) :
  no_char "#" p = true -> slashes_before_hash x <= slashes_before_hash (p ++ x).
Proof.
  induction p as [|c p IH]; intro H; simpl; [lia|].
  simpl in H. apply andb_true_iff in H as [H1 H2]. apply negb_true_iff in H1.
  rewrite H1. specialize (IH H2). destruct (Ascii.eqb c "/"); lia.
Qed.

Lemma no_char_app (d : ascii) (a b : string) :
  no_char d (a ++ b) = no_char d a && no_char d b.
Proof. induction a as [|c a IH]; simpl; [reflexivity|]. unfold no_char in *. simpl. rewrite IH. apply andb_assoc. Qed.

Lemma prefix_drop (a b s : string) :
  String.prefix (a ++ b) s = true -> String.prefix b (drop (String.length a) s) = true.
Proof.
  revert s. induction a as [|c a IH]; intros s H; [exact H|].
  destruct s as [|d s]; [discriminate|].
  apply prefix_cons in H as [_ H]. exact (IH s H).
Qed.

Lemma prefix_get (x s : string) (k : nat) :
  String.prefix x s = true -> k < String.length x -> String.get k s = String.get k x.
Proof.
  revert s k. induction x as [|c x IH]; intros s k H Hk; [simpl in Hk; lia|].
  destruct s as [|d s]; [discriminate|].
  apply prefix_cons in H as [<- H]. destruct k as [|k]; [reflexivity|].
  simpl. apply IH; [exact H | simpl in Hk; lia].
Qed.

Lemma get_drop (k : nat) (s : string) : String.get 0 (drop k s) = String.get k s.
Proof.
  revert s. induction k as [|k IH]; intros [|c s]; try reflexivity. apply IH.
Qed.

Lemma get_beyond (k : nat) (s : string) : String.length s <= k -> String.get k s = None.
Proof.
  revert k. induction s as [|c s IH]; intros [|k] H; simpl in *; try reflexivity; try lia.
  apply IH. lia.
Qed.

Lemma no_char_suffix (git : bool) (b : option string) :
  no_char "/" (hash_part b) = true -> no_char "/" (repo_suffix git b) = true.
Proof. intro H. unfold repo_suffix. rewrite no_char_app, H. destruct git; reflexivity. Qed.

(** An input whose first [github.com/] is preceded by [p] is a tree URL
    only if [p] is [https://] and a slash follows the repo name. *)
Lemma tree_match_generic (p o r : string) (git : bool) (b : option string) :
  (forall i, i < String.length p ->
     String.prefix "github.com/" (drop i (p ++ "github.com/" ++ o ++ "/" ++ r ++ repo_suffix git b)) = false) ->
  no_char "/" o = true -> no_char "/" r = true ->
  (p = "https://" -> no_char "/" (hash_part b) = true) ->
  tree_match (p ++ "github.com/" ++ o ++ "/" ++ r ++ repo_suffix git b) = None.
Proof.
  intros Hfirst Ho Hr Hhttps.
  destruct (tree_match (p ++ "github.com/" ++ o ++ "/" ++ r ++ repo_suffix git b)) eqn:Ht;
    [|reflexivity].
  pose proof (tree_match_prefix _ _ Ht) as Hpre.
  assert (Hg : String.prefix "github.com/"
                 (drop (String.length p) (p ++ "github.com/" ++ o ++ "/" ++ r ++ repo_suffix git b)) = true)
    by (rewrite drop_app; apply prefix_app).
  assert (H8 : String.prefix "github.com/"
                 (drop 8 (p ++ "github.com/" ++ o ++ "/" ++ r ++ repo_suffix git b)) = true)
    by (apply (prefix_drop "https://" "github.com/"); exact Hpre).
  destruct (Nat.lt_trichotomy (String.length p) 8) as [Hlt|[Heq|Hgt]].
  - exfalso.
    pose proof (prefix_get _ _ (String.length p) Hpre ltac:(simpl; lia)) as E1.
    pose proof (prefix_get _ _ 0 Hg ltac:(simpl; lia)) as E2.
    rewrite get_drop in E2. rewrite E2 in E1.
    remember (String.length p) as n. clear - Hlt E1.
    do 8 (destruct n as [|n]; [simpl in E1; discriminate E1|]). lia.
  - assert (Hp : p = "https://").
    { apply get_correct. intro n. destruct (Nat.lt_ge_cases n 8) as [Hn|Hn].
      - rewrite (append_correct1 p ("github.com/" ++ o ++ "/" ++ r ++ repo_suffix git b) n)
          by lia.
        rewrite (prefix_get _ _ n Hpre) by (simpl; lia).
        change "https://github.com/" with ("https://" ++ "github.com/").
        rewrite <- append_correct1 by (simpl; lia). reflexivity.
      - rewrite !get_beyond by (simpl; lia). reflexivity. }
    subst p. specialize (Hhttps eq_refl). rewrite <- Ht. clear Ht.
    change ("https://" ++ "github.com/" ++ o ++ "/" ++ r ++ repo_suffix git b)
      with ("https://github.com/" ++ o ++ String "/" (r ++ repo_suffix git b)).
    unfold tree_match. rewrite prefix_app.
    change 19 with (String.length "https://github.com/"). rewrite drop_app.
    rewrite span_until_app by exact Ho. destruct (nonempty o); [|reflexivity].
    rewrite span_until_none; [reflexivity|].
    rewrite no_char_app, Hr. apply no_char_suffix, Hhttps.
  - rewrite Hfirst in H8 by exact Hgt. discriminate H8.
Qed.

(** Shared form of the generic pattern: whatever precedes the first
    [github.com/] (free of [#]), the owner and repo after it are returned. *)
Lemma parse_generic (p o r : string) (git : bool) (b : option string) :
  (forall i, i < String.length p ->
     String.prefix "github.com/" (drop i (p ++ "github.com/" ++ o ++ "/" ++ r ++ repo_suffix git b)) = false) ->
  no_char "#" p = true ->
  nonempty o = true -> no_line_terminator o = true -> no_char "/" o = true -> no_char "#" o = true ->
  nonempty r = true -> no_line_terminator r = true -> no_char "/" r = true -> no_char "#" r = true ->
  ~ ends_with_git r -> branch_ok b = true ->
  (p = "https://" -> no_char "/" (hash_part b) = true) ->
  parseGitHubUrl (p ++ "github.com/" ++ o ++ "/" ++ r ++ repo_suffix git b) = Ok (mkRepoRef o r b None).
Proof.
  intros Hfirst Hp Ho1 Ho2 Ho3 Ho4 Hr1 Hr2 Hr3 Hr4 Hr5 Hb Hhttps. unfold parseGitHubUrl.
  rewrite tree_match_generic by assumption.
  destruct (shorthand_match (p ++ "github.com/" ++ o ++ "/" ++ r ++ repo_suffix git b)) eqn:Hs.
  - exfalso. apply shorthand_slashes in Hs.
    pose proof (slashes_app_nohash p ("github.com/" ++ o ++ "/" ++ r ++ repo_suffix git b) Hp) as E1.
    pose proof (slashes_app_nohash o (String "/" (r ++ repo_suffix git b)) Ho4) as E2.
    change (o ++ "/" ++ r ++ repo_suffix git b) with (o ++ String "/" (r ++ repo_suffix git b)) in E1, Hs.
    change (slashes_before_hash ("github.com/" ++ o ++ String "/" (r ++ repo_suffix git b)))
      with (S (slashes_before_hash (o ++ String "/" (r ++ repo_suffix git b)))) in E1.
    change (slashes_before_hash (String "/" (r ++ repo_suffix git b)))
      with (S (slashes_before_hash (r ++ repo_suffix git b))) in E2.
    lia.
  - rewrite generic_match_skip by exact Hfirst.
    rewrite generic_match_here by assumption. reflexivity.
Qed.

Lemma not_ends_with_git_length (r : string) : String.length r < 4 -> ~ ends_with_git r.
Proof.
  intros Hl [u ->]. rewrite string_length_app in Hl. simpl in Hl. lia.
Qed.

(* ------------------------------------------------------------------ *)
(** ** Properties of the parser *)

(** C7: the parser tries the tree-URL pattern, then the shorthand pattern,
    then the generic pattern, and the result is built from the groups of
    the first that matches alone; a subfolder is present only when the
    tree-URL pattern matched; and every tree URL
    [https://github.com/O/R/tree/B/sub/path] (O, R, B non-empty segments,
    the path non-empty and on one line) gives owner O, repo R, branch B
    and subfolder [sub/path]. *)
Theorem C7_parser_order_tree :
  (forall input ref, parseGitHubUrl input = Ok ref ->
     (exists o r b sf, tree_match input = Some (o, r, b, sf) /\
                       ref = mkRepoRef o r (Some b) (Some sf))
     \/ (tree_match input = None /\
         exists o r b, shorthand_match input = Some (o, r, b) /\ ref = mkRepoRef o r b None)
     \/ (tree_match input = None /\ shorthand_match input = None /\
         exists o r b, generic_match input = Some (o, r, b) /\ ref = mkRepoRef o r b None))
  /\ (forall input ref, parseGitHubUrl input = Ok ref -> subfolder ref <> None ->
        exists m, tree_match input = Some m)
  /\ (forall o r b sf,
        nonempty o = true -> no_char "/" o = true ->
        nonempty r = true -> no_char "/" r = true ->
        nonempty b = true -> no_char "/" b = true ->
        nonempty sf = true -> no_line_terminator sf = true ->
        parseGitHubUrl ("https://github.com/" ++ o ++ "/" ++ r ++ "/tree/" ++ b ++ "/" ++ sf)
        = Ok (mkRepoRef o r (Some b) (Some sf))).
Proof.
  assert (Hcases : forall input ref, parseGitHubUrl input = Ok ref ->
     (exists o r b sf, tree_match input = Some (o, r, b, sf) /\
                       ref = mkRepoRef o r (Some b) (Some sf))
     \/ (tree_match input = None /\
         exists o r b, shorthand_match input = Some (o, r, b) /\ ref = mkRepoRef o r b None)
     \/ (tree_match input = None /\ shorthand_match input = None /\
         exists o r b, generic_match input = Some (o, r, b) /\ ref = mkRepoRef o r b None)).
  { intros input ref H. unfold parseGitHubUrl in H.
    destruct (tree_match input) as [[[[o r] b] sf]|] eqn:Ht.
    - left. injection H as <-. eauto 10.
    - destruct (shorthand_match input) as [[[o r] b]|] eqn:Hs.
      + right; left. injection H as <-. eauto 10.
      + destruct (generic_match input) as [[[o r] b]|] eqn:Hg; [|discriminate H].
        right; right. injection H as <-. eauto 10. }
  split; [exact Hcases|split].
  - intros input ref H Hsub.
    destruct (Hcases input ref H) as [(o & r & b & sf & Ht & _)|[(_ & o & r & b & _ & ->)|
                                      (_ & _ & o & r & b & _ & ->)]].
    + eauto.
    + exfalso. apply Hsub. reflexivity.
    + exfalso. apply Hsub. reflexivity.
  - intros o r b sf Ho1 Ho2 Hr1 Hr2 Hb1 Hb2 Hs1 Hs2. unfold parseGitHubUrl.
    rewrite tree_match_url by assumption. reflexivity.
Qed.

(** C8 (counterexample): a [#] in a tree URL ends up in the subfolder, and
    a shorthand [o/r.git] keeps [.git] in the repo name. *)
Lemma C8_counterexample :
  parseGitHubUrl "https://github.com/o/r/tree/main/src#x"
    = Ok (mkRepoRef "o" "r" (Some "main") (Some "src#x")) /\
  parseGitHubUrl "o/r.git" = Ok (mkRepoRef "o" "r.git" None None).
Proof. split; reflexivity. Qed.

(** C8 (amended): a trailing [.git] is removed only by the generic
    [github.com] pattern, while the shorthand and tree-URL patterns return
    the repo as written; text after [#] is the branch in the shorthand and
    generic patterns, but in a tree URL the subfolder group takes the rest
    of the input, [#] included.  The generic case holds for any text [p] in
    front of [github.com/] (such as [https://] or [http://www.]), under the
    conditions of the generic pattern: that [github.com/] is the first one
    in the input, [p], owner and repo have no [#], owner and repo are
    non-empty slash-free segments on one line, and the branch has no slash
    when [p] is exactly [https://] (otherwise the tree pattern applies). *)
Theorem C8_git_and_fragment_policy :
  (forall p o r git b,
     (forall i, i < String.length p ->
        String.prefix "github.com/"
          (drop i (p ++ "github.com/" ++ o ++ "/" ++ r ++ repo_suffix git b)) = false) ->
     no_char "#" p = true ->
     nonempty o = true -> no_line_terminator o = true -> no_char "/" o = true ->
     no_char "#" o = true ->
     nonempty r = true -> no_line_terminator r = true -> no_char "/" r = true ->
     no_char "#" r = true -> ~ ends_with_git r -> branch_ok b = true ->
     (p = "https://" -> no_char "/" (hash_part b) = true) ->
     parseGitHubUrl (p ++ "github.com/" ++ o ++ "/" ++ r ++ repo_suffix git b)
     = Ok (mkRepoRef o r b None))
  /\ (forall o r b,
        nonempty o = true -> str_forall is_shorthand_char o = true ->
        nonempty r = true -> str_forall is_shorthand_char r = true ->
        branch_ok b = true ->
        parseGitHubUrl (o ++ "/" ++ r ++ hash_part b) = Ok (mkRepoRef o r b None))
  /\ (forall o r b sf,
        nonempty o = true -> no_char "/" o = true ->
        nonempty r = true -> no_char "/" r = true ->
        nonempty b = true -> no_char "/" b = true ->
        nonempty sf = true -> no_line_terminator sf = true ->
        parseGitHubUrl ("https://github.com/" ++ o ++ "/" ++ r ++ "/tree/" ++ b ++ "/" ++ sf)
        = Ok (mkRepoRef o r (Some b) (Some sf))).
Proof.
  split; [|split].
  - exact parse_generic.
  - intros o r b Ho1 Ho2 Hr1 Hr2 Hb. apply parse_shorthand; try assumption.
    destruct b; [exact Hb | exact I].
  - intros o r b sf Ho1 Ho2 Hr1 Hr2 Hb1 Hb2 Hs1 Hs2. unfold parseGitHubUrl.
    rewrite tree_match_url by assumption. reflexivity.
Qed.

(** C10 (counterexample): a first [github.com/] earlier in the input, or a
    [#] before the [github.com/owner/repo] part, changes the owner and repo
    that are returned. *)
Lemma C10_counterexample :
  parseGitHubUrl "github.com/x/github.com/o/r"
    = Ok (mkRepoRef "x" "github.com/o/r" None None) /\
  parseGitHubUrl "x/y#github.com/o/r"
    = Ok (mkRepoRef "x" "y" (Some "github.com/o/r") None).
Proof. split; reflexivity. Qed.

(** C10 (amended): the generic pattern is unanchored.  For any text [p]
    in front of [github.com/O/R], optionally followed by [.git] and/or
    [#branch], the input parses to owner O and repo R (and the branch),
    provided that this [github.com/] is the first one in the input, that
    [p], O and R contain no [#], that O and R are non-empty slash-free
    segments on one line with R not itself ending in [.git], and that the
    branch has no slash when [p] is exactly [https://] (otherwise the
    tree-URL pattern can match first). *)
Theorem C10_unanchored_generic (p o r : string) (git : bool) (b : option string) :
  (forall i, i < String.length p ->
     String.prefix "github.com/" (drop i (p ++ "github.com/" ++ o ++ "/" ++ r ++ repo_suffix git b)) = false) ->
  no_char "#" p = true ->
  nonempty o = true -> no_line_terminator o = true -> no_char "/" o = true -> no_char "#" o = true ->
  nonempty r = true -> no_line_terminator r = true -> no_char "/" r = true -> no_char "#" r = true ->
  ~ ends_with_git r -> branch_ok b = true ->
  (p = "https://" -> no_char "/" (hash_part b) = true) ->
  parseGitHubUrl (p ++ "github.com/" ++ o ++ "/" ++ r ++ repo_suffix git b) = Ok (mkRepoRef o r b None).
Proof. exact (parse_generic p o r git b). Qed.

Lemma C7_witness :
  parseGitHubUrl "https://github.com/user/repo/tree/main/src/lib"
    = Ok (mkRepoRef "user" "repo" (Some "main") (Some "src/lib")) /\
  (exists m, tree_match "https://github.com/user/repo/tree/main/src/lib" = Some m).
Proof.
  split.
  - exact (proj2 (proj2 C7_parser_order_tree) "user" "repo" "main" "src/lib"
             eq_refl eq_refl eq_refl eq_refl eq_refl eq_refl eq_refl eq_refl).
  - apply (proj1 (proj2 C7_parser_order_tree) _
             (mkRepoRef "user" "repo" (Some "main") (Some "src/lib"))).
    + reflexivity.
    + discriminate.
Defined.

Lemma C8_witness :
  parseGitHubUrl "https://github.com/o/r.git#dev" = Ok (mkRepoRef "o" "r" (Some "dev") None) /\
  parseGitHubUrl "https://github.com/o/r#dev" = Ok (mkRepoRef "o" "r" (Some "dev") None) /\
  parseGitHubUrl "https://github.com/o/r.git" = Ok (mkRepoRef "o" "r" None None) /\
  parseGitHubUrl "o/r.git#dev" = Ok (mkRepoRef "o" "r.git" (Some "dev") None) /\
  parseGitHubUrl "https://github.com/o/r.git/tree/main/a#b"
    = Ok (mkRepoRef "o" "r.git" (Some "main") (Some "a#b")).
Proof.
  split; [|split; [|split; [|split]]].
  - apply (proj1 C8_git_and_fragment_policy "https://" "o" "r" true (Some "dev"));
      try reflexivity.
    + intros i Hi. simpl in Hi. do 8 (destruct i as [|i]; [reflexivity|]). lia.
    + apply not_ends_with_git_length. simpl. lia.
  - apply (proj1 C8_git_and_fragment_policy "https://" "o" "r" false (Some "dev"));
      try reflexivity.
    + intros i Hi. simpl in Hi. do 8 (destruct i as [|i]; [reflexivity|]). lia.
    + apply not_ends_with_git_length. simpl. lia.
  - apply (proj1 C8_git_and_fragment_policy "https://" "o" "r" true None);
      try reflexivity.
    + intros i Hi. simpl in Hi. do 8 (destruct i as [|i]; [reflexivity|]). lia.
    + apply not_ends_with_git_length. simpl. lia.
  - exact (proj1 (proj2 C8_git_and_fragment_policy) "o" "r.git" (Some "dev")
             eq_refl eq_refl eq_refl eq_refl eq_refl).
  - exact (proj2 (proj2 C8_git_and_fragment_policy) "o" "r.git" "main" "a#b"
             eq_refl eq_refl eq_refl eq_refl eq_refl eq_refl eq_refl eq_refl).
Defined.

Lemma C10_witness :
  parseGitHubUrl "see github.com/o/r.git#dev" = Ok (mkRepoRef "o" "r" (Some "dev") None).
Proof.
  apply (C10_unanchored_generic "see " "o" "r" true (Some "dev")).
  - intros i Hi. simpl in Hi. do 4 (destruct i as [|i]; [reflexivity|]). lia.
  - reflexivity.
  - reflexivity.
  - reflexivity.
  - reflexivity.
  - reflexivity.
  - reflexivity.
  - reflexivity.
  - reflexivity.
  - reflexivity.
  - apply not_ends_with_git_length. simpl. lia.
  - reflexivity.
  - discriminate.
Defined.

(* ================================================================== *)
(** * Further properties of the code *)

(* ------------------------------------------------------------------ *)
(** ** How a run of [downloadFolder] ends *)

Lemma forallb_app_true {A} (f : A -> bool) (a b : list A) :
  forallb f a = true -> forallb f b = true -> forallb f (a ++ b) = true.
Proof. intros Ha Hb. rewrite forallb_app, Ha, Hb. reflexivity. Qed.

Lemma step_extends FS fs_ensureDir fs_writeFile prefix nsub out_dir st e :
  exists ext,
    ls_trace FS (step_entry FS fs_ensureDir fs_writeFile prefix nsub out_dir st e)
    = ls_trace FS st +++ ext /\ forallb pre_event ext = true.
Proof.
  unfold step_entry, ls_log. destruct (in_scope _ _ _).
  - destruct (entry_type e).
    + destruct (fs_ensureDir _ _) as [? [?|]]; simpl;
        eexists; (split; [rewrite <- ?app_assoc; reflexivity | reflexivity]).
    + destruct (fs_ensureDir _ _) as [? [?|]]; simpl;
        [| destruct (fs_writeFile _ _ _) as [? [?|]]; simpl];
        eexists; (split; [rewrite <- ?app_assoc; reflexivity | reflexivity]).
  - simpl. eexists. split; reflexivity.
Qed.

Lemma loop_extends FS fs_ensureDir fs_writeFile prefix nsub out_dir st es :
  exists ext,
    ls_trace FS (extract_loop FS fs_ensureDir fs_writeFile prefix nsub out_dir st es)
    = ls_trace FS st +++ ext /\ forallb pre_event ext = true.
Proof.
  revert st. induction es as [|e es IH]; intro st; simpl.
  - exists []. rewrite app_nil_r. split; reflexivity.
  - destruct (step_extends FS fs_ensureDir fs_writeFile prefix nsub out_dir st e) as (x1 & H1 & F1).
    destruct (IH (step_entry FS fs_ensureDir fs_writeFile prefix nsub out_dir st e)) as (x2 & H2 & F2).
    exists (x1 +++ x2). rewrite H2, H1, app_assoc. split; [reflexivity|].
    apply forallb_app_true; assumption.
Qed.

Lemma outer_catch_none_shape FS fs_remove temp fs tr m :
  forallb pre_event tr = true ->
  match outer_catch FS fs_remove None fs tr m with
  | Finished _ r => run_shape temp r | Ready _ _ => False end.
Proof. intro H. simpl. exists tr. split; [exact H|]. left. eexists. split; reflexivity. Qed.

Lemma outer_catch_some_shape FS fs_remove temp fs tr m :
  forallb pre_event tr = true ->
  match outer_catch FS fs_remove (Some temp) fs tr m with
  | Finished _ r => run_shape temp r | Ready _ _ => False end.
Proof.
  intro H. simpl. exists tr. split; [exact H|]. right; left. eexists. split; reflexivity.
Qed.

Lemma after_download_shape FS fs_stat fs_readdir fs_ensureDir fs_writeFile fs_remove
    env fs sub target temp prefix entries tr1 :
  forallb pre_event tr1 = true ->
  run_shape temp
    (match after_download FS fs_stat fs_readdir fs_ensureDir fs_remove env fs sub target
             temp prefix entries tr1 with
     | Finished _ r => r
     | Ready _ cx => finish FS fs_remove sub cx (run_loop FS fs_ensureDir fs_writeFile cx)
     end).
Proof.
  intro H1. unfold after_download.
  destruct (target_guard FS fs_stat fs_readdir (output_dir_of env sub target) fs) as [gtr v] eqn:Eg.
  assert (Hg : forallb pre_event gtr = true).
  { pose proof (target_guard_trace FS fs_stat fs_readdir (output_dir_of env sub target) fs) as Ht.
    rewrite Eg in Ht. simpl in Ht. destruct Ht as [-> | ->]; reflexivity. }
  assert (H2 : forallb pre_event (tr1 +++ gtr) = true) by (apply forallb_app_true; assumption).
  destruct v.
  - destruct (fs_ensureDir temp fs) as [fs1 [err|]].
    + apply (outer_catch_some_shape FS fs_remove temp fs1 _ _).
      apply forallb_app_true; [exact H2 | reflexivity].
    + destruct (fs_ensureDir (output_dir_of env sub target) fs1) as [fs2 [err|]].
      * apply (outer_catch_some_shape FS fs_remove temp fs2 _ _).
        apply forallb_app_true; [apply forallb_app_true; [exact H2 | reflexivity] | reflexivity].
      * unfold finish, run_loop. simpl.
        match goal with
        | |- context [extract_loop ?a ?b ?c ?d ?e ?f ?st ?es] =>
            destruct (loop_extends a b c d e f st es) as (ext & He & Hf);
            set (L := extract_loop a b c d e f st es) in *
        end.
        clearbody L. simpl in He.
        assert (Hpre : forallb pre_event
                  ((((tr1 +++ gtr) +++ [EvEnsureDir temp None]) +++
                    [EvEnsureDir (output_dir_of env sub target) None]) +++ ext) = true).
        { apply forallb_app_true; [|exact Hf].
          apply forallb_app_true; [apply forallb_app_true; [exact H2|]|]; reflexivity. }
        destruct (ls_matched FS L); simpl; rewrite He.
        -- eexists. split; [exact Hpre|]. right; right. do 3 eexists.
           split; [reflexivity|]. split; [reflexivity|].
           apply in_or_app. left. apply in_or_app. left. apply in_or_app. right. left. reflexivity.
        -- eexists. split; [exact Hpre|]. right; left. eexists.
           split; reflexivity.
  - simpl. eexists. split; [exact H2|]. left. eexists. split; reflexivity.
  - simpl. eexists. split; [exact H2|]. left. eexists. split; reflexivity.
  - simpl. eexists. split; [exact H2|]. left. eexists. split; reflexivity.
Qed.

Lemma downloadFolder_shape FS fs_stat fs_readdir fs_ensureDir fs_writeFile fs_remove
    env fs repoUrl sub target :
  run_shape (temp_dir_of env)
    (downloadFolder FS fs_stat fs_readdir fs_ensureDir fs_writeFile fs_remove
       env fs repoUrl sub target).
Proof.
  unfold downloadFolder, prepare.
  destruct (parseGitHubUrl repoUrl) as [rf|m].
  2:{ pose proof (outer_catch_none_shape FS fs_remove (temp_dir_of env) fs [] m eq_refl) as H.
      destruct (outer_catch FS fs_remove None fs [] m); [exact H | destruct H]. }
  assert (Hz : forall fb tr0, forallb pre_event tr0 = true ->
    run_shape (temp_dir_of env)
      (match
         match env_zip env (zip_url (owner rf) (repo rf) fb) with
         | RespOk (Some entries) =>
             after_download FS fs_stat fs_readdir fs_ensureDir fs_remove env fs sub target
               (temp_dir_of env) (repo rf ++ "-" ++ fb ++ "/") entries
               (tr0 +++ [EvFetch (zip_url (owner rf) (repo rf) fb)])
         | RespOk None =>
             outer_catch FS fs_remove (Some (temp_dir_of env)) fs
               (tr0 +++ [EvFetch (zip_url (owner rf) (repo rf) fb)]) "Error fetching data"
         | RespNotOk st =>
             outer_catch FS fs_remove (Some (temp_dir_of env)) fs
               (tr0 +++ [EvFetch (zip_url (owner rf) (repo rf) fb)])
               ("Failed to download ZIP: " ++ st)
         | RespNetError m =>
             outer_catch FS fs_remove (Some (temp_dir_of env)) fs
               (tr0 +++ [EvFetch (zip_url (owner rf) (repo rf) fb)]) m
         end
       with
       | Finished _ r => r
       | Ready _ cx => finish FS fs_remove sub cx (run_loop FS fs_ensureDir fs_writeFile cx)
       end)).
  { intros fb tr0 H0.
    assert (H1 : forallb pre_event (tr0 +++ [EvFetch (zip_url (owner rf) (repo rf) fb)]) = true)
      by (apply forallb_app_true; [exact H0 | reflexivity]).
    destruct (env_zip env (zip_url (owner rf) (repo rf) fb)) as [[entries|]|st|m].
    - apply after_download_shape. exact H1.
    - pose proof (outer_catch_some_shape FS fs_remove (temp_dir_of env) fs _ "Error fetching data" H1) as H.
      destruct (outer_catch _ _ _ _ _ _); [exact H | destruct H].
    - pose proof (outer_catch_some_shape FS fs_remove (temp_dir_of env) fs _
                    ("Failed to download ZIP: " ++ st) H1) as H.
      destruct (outer_catch _ _ _ _ _ _); [exact H | destruct H].
    - pose proof (outer_catch_some_shape FS fs_remove (temp_dir_of env) fs _ m H1) as H.
      destruct (outer_catch _ _ _ _ _ _); [exact H | destruct H]. }
  assert (Hm : forall tr0, forallb pre_event tr0 = true ->
    run_shape (temp_dir_of env)
      (match
         match (env_metadata env (owner rf) (repo rf), tr0) with
         | (RespNotOk st, tr) => outer_catch FS fs_remove None fs tr ("Failed to fetch repo metadata: " ++ st)
         | (RespNetError m, tr) => outer_catch FS fs_remove None fs tr m
         | (RespOk fb, tr0) =>
             match env_zip env (zip_url (owner rf) (repo rf) fb) with
             | RespOk (Some entries) =>
                 after_download FS fs_stat fs_readdir fs_ensureDir fs_remove env fs sub target
                   (temp_dir_of env) (repo rf ++ "-" ++ fb ++ "/") entries
                   (tr0 +++ [EvFetch (zip_url (owner rf) (repo rf) fb)])
             | RespOk None =>
                 outer_catch FS fs_remove (Some (temp_dir_of env)) fs
                   (tr0 +++ [EvFetch (zip_url (owner rf) (repo rf) fb)]) "Error fetching data"
             | RespNotOk st =>
                 outer_catch FS fs_remove (Some (temp_dir_of env)) fs
                   (tr0 +++ [EvFetch (zip_url (owner rf) (repo rf) fb)])
                   ("Failed to download ZIP: " ++ st)
             | RespNetError m =>
                 outer_catch FS fs_remove (Some (temp_dir_of env)) fs
                   (tr0 +++ [EvFetch (zip_url (owner rf) (repo rf) fb)]) m
             end
         end
       with
       | Finished _ r => r
       | Ready _ cx => finish FS fs_remove sub cx (run_loop FS fs_ensureDir fs_writeFile cx)
       end)).
  { intros tr0 H0. destruct (env_metadata env (owner rf) (repo rf)) as [fb|st|m].
    - apply Hz. exact H0.
    - pose proof (outer_catch_none_shape FS fs_remove (temp_dir_of env) fs tr0
                    ("Failed to fetch repo metadata: " ++ st) H0) as H.
      destruct (outer_catch _ _ _ _ _ _); [exact H | destruct H].
    - pose proof (outer_catch_none_shape FS fs_remove (temp_dir_of env) fs tr0 m H0) as H.
      destruct (outer_catch _ _ _ _ _ _); [exact H | destruct H]. }
  destruct (branch rf) as [b|]; [destruct (nonempty b)|].
  - apply (Hz b []). reflexivity.
  - apply Hm. reflexivity.
  - apply Hm. reflexivity.
Qed.

Lemma count_final_app (a b : list Event) :
  count_final (a ++ b) = count_final a + count_final b.
Proof. induction a as [|ev a IH]; [reflexivity|]. destruct ev; simpl; rewrite ?IH; reflexivity. Qed.

Lemma pre_events_quiet (pre : list Event) :
  forallb pre_event pre = true ->
  count_final pre = 0 /\ has_success pre = false /\ (forall p, ~ In (EvRemove p) pre).
Proof.
  induction pre as [|ev pre IH]; intro H; [split; [reflexivity | split; [reflexivity | intros p []]]|].
  simpl in H. apply andb_true_iff in H as [H1 H2]. destruct (IH H2) as (C & S & R).
  destruct ev; try discriminate H1; unfold has_success in *; simpl;
    (split; [exact C | split; [exact S | intros q [Hq | Hq]; [discriminate Hq | exact (R q Hq)]]]).
Qed.

(** X1: every run of [downloadFolder] ends with exactly one final report
    through the spinner; [process.exitCode] is left unset exactly when that
    report is the success message, and is [1] otherwise. *)
Theorem downloadFolder_single_verdict FS fs_stat fs_readdir fs_ensureDir fs_writeFile fs_remove
    env fs repoUrl sub target :
  let r := downloadFolder FS fs_stat fs_readdir fs_ensureDir fs_writeFile fs_remove
             env fs repoUrl sub target in
  count_final (rr_trace FS r) = 1 /\
  (rr_exit FS r = None <-> has_success (rr_trace FS r) = true) /\
  (rr_exit FS r = None \/ rr_exit FS r = Some 1).
Proof.
  intro r.
  destruct (downloadFolder_shape FS fs_stat fs_readdir fs_ensureDir fs_writeFile fs_remove
              env fs repoUrl sub target) as (pre & Hp & Hs).
  fold r in Hs. destruct (pre_events_quiet pre Hp) as (C & S & _).
  unfold has_success in *.
  destruct Hs as [(m & -> & ->)|[(m & -> & ->)|(s & o & n & -> & -> & _)]];
    rewrite count_final_app, existsb_app, C, S; simpl.
  - split; [reflexivity|]. split; [split; discriminate|]. right; reflexivity.
  - split; [reflexivity|]. split; [split; discriminate|]. right; reflexivity.
  - split; [reflexivity|]. split; [split; reflexivity|]. left; reflexivity.
Qed.

(** X2: the only path [downloadFolder] ever removes is its scratch directory
    [path.join(os.tmpdir(), 'gh-folder-' + Date.now())]. *)
Theorem downloadFolder_removes_only_temp FS fs_stat fs_readdir fs_ensureDir fs_writeFile fs_remove
    env fs repoUrl sub target p :
  In (EvRemove p) (rr_trace FS (downloadFolder FS fs_stat fs_readdir fs_ensureDir fs_writeFile
                                 fs_remove env fs repoUrl sub target)) ->
  p = temp_dir_of env.
Proof.
  destruct (downloadFolder_shape FS fs_stat fs_readdir fs_ensureDir fs_writeFile fs_remove
              env fs repoUrl sub target) as (pre & Hp & Hs).
  destruct (pre_events_quiet pre Hp) as (_ & _ & R).
  destruct Hs as [(m & -> & _)|[(m & -> & _)|(s & o & n & -> & _ & _)]];
    intro H; apply in_app_or in H as [H|H]; try (exfalso; exact (R p H));
    simpl in H; intuition congruence.
Qed.

(** X3: a successful run creates the scratch directory and never removes
    it: the directory [gh-folder-<timestamp>] is left behind. *)
Theorem downloadFolder_success_leaves_temp FS fs_stat fs_readdir fs_ensureDir fs_writeFile fs_remove
    env fs repoUrl sub target :
  let r := downloadFolder FS fs_stat fs_readdir fs_ensureDir fs_writeFile fs_remove
             env fs repoUrl sub target in
  rr_exit FS r = None ->
  In (EvEnsureDir (temp_dir_of env) None) (rr_trace FS r) /\
  (forall p, ~ In (EvRemove p) (rr_trace FS r)).
Proof.
  intro r.
  destruct (downloadFolder_shape FS fs_stat fs_readdir fs_ensureDir fs_writeFile fs_remove
              env fs repoUrl sub target) as (pre & Hp & Hs).
  fold r in Hs. destruct (pre_events_quiet pre Hp) as (_ & _ & R).
  destruct Hs as [(m & _ & He)|[(m & _ & He)|(s & o & n & Ht & _ & Hin)]]; intro Hx;
    [rewrite Hx in He; discriminate He | rewrite Hx in He; discriminate He |].
  rewrite Ht. split.
  - apply in_or_app. left. exact Hin.
  - intros p H. apply in_app_or in H as [H|H]; [exact (R p H)|]. simpl in H. intuition congruence.
Qed.

(** X4: when [parseGitHubUrl] rejects [repoUrl], [downloadFolder] reports
    the parser's message and exits with 1 without any request or
    file-system call ([tempDir] is still [null], so nothing is removed). *)
Theorem downloadFolder_parse_error FS fs_stat fs_readdir fs_ensureDir fs_writeFile fs_remove
    env fs repoUrl sub target m :
  parseGitHubUrl repoUrl = Err m ->
  downloadFolder FS fs_stat fs_readdir fs_ensureDir fs_writeFile fs_remove env fs repoUrl sub target
  = mkRunResult FS fs [EvFail m] (Some 1).
Proof. intro H. unfold downloadFolder, prepare. rewrite H. reflexivity. Qed.

Lemma after_download_extends FS fs_stat fs_readdir fs_ensureDir fs_writeFile fs_remove
    env fs sub target temp prefix entries tr1 :
  exists rest,
    rr_trace FS
      (match after_download FS fs_stat fs_readdir fs_ensureDir fs_remove env fs sub target
               temp prefix entries tr1 with
       | Finished _ r => r
       | Ready _ cx => finish FS fs_remove sub cx (run_loop FS fs_ensureDir fs_writeFile cx)
       end) = tr1 +++ rest.
Proof.
  unfold after_download.
  destruct (target_guard FS fs_stat fs_readdir (output_dir_of env sub target) fs) as [gtr v].
  destruct v; simpl; try (eexists; rewrite <- app_assoc; reflexivity).
  destruct (fs_ensureDir temp fs) as [fs1 [err|]]; simpl;
    [eexists; rewrite <- !app_assoc; reflexivity|].
  destruct (fs_ensureDir (output_dir_of env sub target) fs1) as [fs2 [err|]]; simpl;
    [eexists; rewrite <- !app_assoc; reflexivity|].
  unfold finish, run_loop. simpl.
  match goal with
  | |- context [extract_loop ?a ?b ?c ?d ?e ?f ?st ?es] =>
      destruct (loop_extends a b c d e f st es) as (ext & He & _);
      set (L := extract_loop a b c d e f st es) in *
  end.
  clearbody L. simpl in He.
  destruct (ls_matched FS L); simpl; rewrite He; eexists; rewrite <- !app_assoc; reflexivity.
Qed.

(** X5: the branch used for the ZIP.  A non-empty branch in [repoUrl] is
    used as is and the first request is the ZIP download; without one,
    [getDefaultBranch] first requests the repository metadata and the ZIP
    of the [default_branch] it returns is requested next. *)
Theorem downloadFolder_branch_choice FS fs_stat fs_readdir fs_ensureDir fs_writeFile fs_remove
    env fs repoUrl sub target rf :
  parseGitHubUrl repoUrl = Ok rf ->
  let r := downloadFolder FS fs_stat fs_readdir fs_ensureDir fs_writeFile fs_remove
             env fs repoUrl sub target in
  (forall b, branch rf = Some b -> nonempty b = true ->
     exists rest, rr_trace FS r = EvFetch (zip_url (owner rf) (repo rf) b) :: rest) /\
  (branch rf = None -> forall fb, env_metadata env (owner rf) (repo rf) = RespOk fb ->
     exists rest, rr_trace FS r = EvFetch (metadata_url (owner rf) (repo rf))
                                  :: EvFetch (zip_url (owner rf) (repo rf) fb) :: rest).
Proof.
  intros Hp r. unfold r, downloadFolder, prepare. rewrite Hp. split.
  - intros b Hb Hn. rewrite Hb, Hn. cbn beta iota zeta.
    destruct (env_zip env (zip_url (owner rf) (repo rf) b)) as [[entries|]| |]; simpl;
      try (eexists; reflexivity).
    apply after_download_extends.
  - intros Hb fb Hm. rewrite Hb. cbn beta iota zeta. rewrite Hm.
    destruct (env_zip env (zip_url (owner rf) (repo rf) fb)) as [[entries|]| |]; simpl;
      try (eexists; reflexivity).
    apply after_download_extends.
Qed.

(** X6: when the repository metadata request of [getDefaultBranch] is
    answered with a non-[ok] status, the run fails with [Failed to fetch repo
    metadata: <statusText>] and exit code 1, before any file-system call. *)
Theorem downloadFolder_metadata_failure FS fs_stat fs_readdir fs_ensureDir fs_writeFile fs_remove
    env fs repoUrl sub target rf st :
  parseGitHubUrl repoUrl = Ok rf -> branch rf = None ->
  env_metadata env (owner rf) (repo rf) = RespNotOk st ->
  downloadFolder FS fs_stat fs_readdir fs_ensureDir fs_writeFile fs_remove env fs repoUrl sub target
  = mkRunResult FS fs [EvFetch (metadata_url (owner rf) (repo rf));
                       EvFail ("Failed to fetch repo metadata: " ++ st)] (Some 1).
Proof.
  intros Hp Hb Hm. unfold downloadFolder, prepare. rewrite Hp, Hb. cbn beta iota zeta.
  rewrite Hm. reflexivity.
Qed.

(** X7: when the ZIP request is answered with a non-[ok] status, the run
    fails with [Failed to download ZIP: <statusText>], exits with 1 and
    removes the scratch directory, which it never created; the output path
    is not probed.  This holds both for a branch given in the input and for
    the default branch read from the repository metadata (when the input
    has no branch, or an empty one), where the metadata request comes
    first in the trace. *)
Theorem downloadFolder_zip_failure FS fs_stat fs_readdir fs_ensureDir fs_writeFile fs_remove
    env fs repoUrl sub target rf st :
  parseGitHubUrl repoUrl = Ok rf ->
  (forall b, branch rf = Some b -> nonempty b = true ->
     env_zip env (zip_url (owner rf) (repo rf) b) = RespNotOk st ->
     downloadFolder FS fs_stat fs_readdir fs_ensureDir fs_writeFile fs_remove env fs repoUrl sub target
     = mkRunResult FS (fs_remove (temp_dir_of env) fs)
         [EvFetch (zip_url (owner rf) (repo rf) b); EvFail ("Failed to download ZIP: " ++ st);
          EvRemove (temp_dir_of env)] (Some 1)) /\
  (forall fb, truthy (branch rf) = false ->
     env_metadata env (owner rf) (repo rf) = RespOk fb ->
     env_zip env (zip_url (owner rf) (repo rf) fb) = RespNotOk st ->
     downloadFolder FS fs_stat fs_readdir fs_ensureDir fs_writeFile fs_remove env fs repoUrl sub target
     = mkRunResult FS (fs_remove (temp_dir_of env) fs)
         [EvFetch (metadata_url (owner rf) (repo rf)); EvFetch (zip_url (owner rf) (repo rf) fb);
          EvFail ("Failed to download ZIP: " ++ st); EvRemove (temp_dir_of env)] (Some 1)).
Proof.
  intros Hp. split.
  - intros b Hb Hn Hz. unfold downloadFolder, prepare. rewrite Hp, Hb, Hn. cbn beta iota zeta.
    rewrite Hz. reflexivity.
  - intros fb Ht Hm Hz. unfold downloadFolder, prepare. rewrite Hp.
    destruct (branch rf) as [b|] eqn:Hb; [simpl in Ht; rewrite Ht|];
      cbn beta iota zeta; rewrite Hm; cbn beta iota zeta; rewrite Hz; reflexivity.
Qed.

(* ------------------------------------------------------------------ *)
(** ** Paths: the output directory and the destination of an entry *)

Lemma split_slash_nonnil (s : string) : split_slash s <> [].
Proof.
  induction s as [|c s IH]; simpl; [discriminate|].
  destruct (Ascii.eqb c "/"); [discriminate|]. destruct (split_slash s); discriminate.
Qed.

Lemma split_slash_no_slash (s : string) :
  Forall (fun x => no_char "/" x = true) (split_slash s).
Proof.
  induction s as [|c s IH]; simpl; [repeat constructor|].
  destruct (Ascii.eqb c "/") eqn:Hc; [constructor; [reflexivity | exact IH]|].
  destruct (split_slash s) as [|x xs] eqn:E.
  - constructor; [|constructor]. unfold no_char. simpl. rewrite Hc. reflexivity.
  - inversion IH as [|? ? Hx Hxs]; subst. constructor; [|exact Hxs].
    unfold no_char in *. simpl. rewrite Hc. exact Hx.
Qed.

Lemma split_slash_app (a b : string) :
  split_slash (a ++ String "/" b) = (split_slash a ++ split_slash b)%list.
Proof.
  induction a as [|c a IH]; simpl; [reflexivity|].
  destruct (Ascii.eqb c "/"); [rewrite IH; reflexivity|].
  rewrite IH. pose proof (split_slash_nonnil a) as Hn.
  destruct (split_slash a) as [|x xs]; [congruence | reflexivity].
Qed.

Lemma split_slash_single (x : string) : no_char "/" x = true -> split_slash x = [x].
Proof.
  induction x as [|c x IH]; intro H; [reflexivity|].
  simpl in H. apply andb_true_iff in H as [H1 H2]. apply negb_true_iff in H1.
  simpl. rewrite H1, IH by exact H2. reflexivity.
Qed.

Lemma split_slash_concat (segs : list string) :
  segs <> [] -> Forall (fun x => no_char "/" x = true) segs ->
  split_slash (String.concat "/" segs) = segs.
Proof.
  induction segs as [|x [|y t] IH]; intros Hn Hf; [congruence| |].
  - inversion Hf; subst. simpl. apply split_slash_single. assumption.
  - inversion Hf; subst.
    change (String.concat "/" (x :: y :: t)) with (x ++ String "/" (String.concat "/" (y :: t))).
    rewrite split_slash_app, split_slash_single by assumption.
    rewrite IH by (discriminate || assumption). reflexivity.
Qed.

Lemma valid_segment_parts (s : string) :
  valid_segment s = true ->
  String.eqb s EmptyString = false /\ String.eqb s "." = false /\ String.eqb s ".." = false /\
  no_char "/" s = true /\ nonempty s = true.
Proof.
  unfold valid_segment. intro H. rewrite !andb_true_iff in H.
  destruct H as [[[H1 H2] H3] H4]. apply negb_true_iff in H2, H3.
  repeat split; try assumption. destruct s; [discriminate H1 | reflexivity].
Qed.

Lemma normalize_step_valid (st : list string) (seg : string) :
  Forall (fun x => valid_segment x = true) st -> no_char "/" seg = true ->
  Forall (fun x => valid_segment x = true) (normalize_step false st seg).
Proof.
  intros Hst Hseg. unfold normalize_step.
  destruct (String.eqb seg EmptyString) eqn:E1; [exact Hst|].
  destruct (String.eqb seg ".") eqn:E2; [exact Hst|]. simpl.
  destruct (String.eqb seg "..") eqn:E3.
  - destruct st as [|x st']; [constructor|].
    inversion Hst; subst. destruct (String.eqb x ".."); assumption.
  - constructor; [|exact Hst]. unfold valid_segment. rewrite E2, E3, Hseg.
    destruct seg; [discriminate E1 | reflexivity].
Qed.

Lemma fold_normalize_valid (l st : list string) :
  Forall (fun x => valid_segment x = true) st -> Forall (fun x => no_char "/" x = true) l ->
  Forall (fun x => valid_segment x = true) (fold_left (normalize_step false) l st).
Proof.
  revert st. induction l as [|seg l IH]; intros st Hst Hl; simpl; [exact Hst|].
  inversion Hl; subst. apply IH; [apply normalize_step_valid|]; assumption.
Qed.

Lemma output_dir_segments (env : Env) (sub : string) (target : option string) :
  exists segs, Forall (fun x => valid_segment x = true) segs /\
               output_dir_of env sub target = "/" ++ String.concat "/" segs.
Proof.
  unfold output_dir_of, path_resolve, normalize_string.
  eexists. split; [|reflexivity]. apply Forall_rev.
  apply fold_normalize_valid; [constructor | apply split_slash_no_slash].
Qed.

Lemma fold_normalize_push (segs st : list string) :
  Forall (fun x => valid_segment x = true) segs ->
  fold_left (normalize_step false) segs st = (rev segs ++ st)%list.
Proof.
  revert st. induction segs as [|x segs IH]; intros st H; [reflexivity|].
  inversion H as [|? ? Hx Hs]; subst. simpl.
  destruct (valid_segment_parts x Hx) as (E1 & E2 & E3 & _ & _).
  unfold normalize_step at 2. rewrite E1, E2, E3. simpl.
  rewrite IH by exact Hs. rewrite <- app_assoc. reflexivity.
Qed.

Lemma fold_normalize_pop (n : nat) (st : list string) :
  Forall (fun x => valid_segment x = true) st ->
  fold_left (normalize_step false) (repeat ".." n) st = skipn n st.
Proof.
  revert st. induction n as [|n IH]; intros st H; [reflexivity|].
  simpl. destruct st as [|x st'].
  - replace (normalize_step false [] "..") with (@nil string) by reflexivity.
    rewrite (IH [] (Forall_nil _)). destruct n; reflexivity.
  - inversion H as [|? ? Hx Hs]; subst.
    destruct (valid_segment_parts x Hx) as (_ & _ & E3 & _ & _).
    replace (normalize_step false (x :: st') "..") with st'
      by (unfold normalize_step; simpl; rewrite E3; reflexivity).
    apply IH. exact Hs.
Qed.

(** The segments [normalizeString] keeps when no [..] occurs. *)
Definition kept_segment (s : string) : bool :=
  negb (String.eqb s EmptyString) && negb (String.eqb s ".").

Lemma fold_normalize_keep (l st : list string) :
  Forall (fun s => s <> "..") l ->
  fold_left (normalize_step false) l st = (rev (filter kept_segment l) ++ st)%list.
Proof.
  revert st. induction l as [|seg l IH]; intros st H; [reflexivity|].
  inversion H as [|? ? Hseg Hl]; subst. simpl. unfold normalize_step at 2, kept_segment.
  destruct (String.eqb seg EmptyString); simpl; [apply IH, Hl|].
  destruct (String.eqb seg "."); simpl; [apply IH, Hl|].
  destruct (String.eqb seg "..") eqn:E; [apply String.eqb_eq in E; congruence|].
  rewrite IH by exact Hl. rewrite <- app_assoc. reflexivity.
Qed.

Lemma split_slash_dotdots (n : nat) (x : string) :
  split_slash (dotdots n ++ x) = (repeat ".." n ++ split_slash x)%list.
Proof.
  induction n as [|n IH]; [reflexivity|].
  change (dotdots (S n) ++ x) with (".." ++ String "/" (dotdots n ++ x)).
  rewrite split_slash_app, IH. reflexivity.
Qed.

Lemma nonempty_app_r (a b : string) : nonempty b = true -> nonempty (a ++ b) = true.
Proof. destruct a; simpl; auto. Qed.

Lemma ends_with_slash_app (a b : string) :
  nonempty b = true -> ends_with_slash (a ++ b) = ends_with_slash b.
Proof.
  intro Hb. induction a as [|c a IH]; [reflexivity|].
  simpl. rewrite <- IH. destruct (a ++ b) eqn:E; [destruct a, b; discriminate|]. reflexivity.
Qed.

Lemma ends_with_slash_no_slash (x : string) : no_char "/" x = true -> ends_with_slash x = false.
Proof.
  induction x as [|c x IH]; intro H; [reflexivity|].
  simpl in H. apply andb_true_iff in H as [H1 H2]. apply negb_true_iff in H1.
  destruct x as [|d x]; [exact H1|]. exact (IH H2).
Qed.

Lemma concat_app_segs (segs k : list string) :
  segs <> [] ->
  String.concat "/" (segs ++ k) =
  String.concat "/" segs ++ match k with [] => EmptyString | _ => "/" ++ String.concat "/" k end.
Proof.
  induction segs as [|x [|y t] IH]; intro Hn; [congruence| |].
  - destruct k; simpl; [rewrite string_app_nil|]; reflexivity.
  - change (String.concat "/" ((x :: y :: t) ++ k))
      with (x ++ "/" ++ String.concat "/" ((y :: t) ++ k)).
    rewrite IH by discriminate.
    change (String.concat "/" (x :: y :: t)) with (x ++ "/" ++ String.concat "/" (y :: t)).
    rewrite !string_app_assoc. reflexivity.
Qed.

Lemma concat_segs_facts (segs : list string) :
  Forall (fun x => valid_segment x = true) segs -> segs <> [] ->
  nonempty (String.concat "/" segs) = true /\ ends_with_slash (String.concat "/" segs) = false.
Proof.
  induction segs as [|x [|y t] IH]; intros Hf Hn; [congruence| |].
  - inversion Hf as [|? ? Hx _]; subst. destruct (valid_segment_parts x Hx) as (_ & _ & _ & H4 & H5).
    simpl. split; [exact H5 | apply ends_with_slash_no_slash, H4].
  - inversion Hf as [|? ? Hx Hs]; subst. destruct (IH Hs ltac:(discriminate)) as [N E].
    destruct (valid_segment_parts x Hx) as (_ & _ & _ & _ & H5).
    change (String.concat "/" (x :: y :: t)) with (x ++ "/" ++ String.concat "/" (y :: t)).
    split.
    + destruct x; [discriminate H5 | reflexivity].
    + rewrite ends_with_slash_app by reflexivity.
      rewrite (ends_with_slash_app "/" _ N). exact E.
Qed.

Lemma valid_no_slash (segs : list string) :
  Forall (fun x => valid_segment x = true) segs -> Forall (fun x => no_char "/" x = true) segs.
Proof.
  intro H. induction H as [|x l Hx _ IH]; constructor; [|exact IH].
  destruct (valid_segment_parts x Hx) as (_ & _ & _ & H4 & _). exact H4.
Qed.

Lemma is_absolute_slash (x : string) : is_absolute (String "/" x) = true.
Proof. exact (prefix_app "/" x). Qed.

(** [path.join(outputDir, rest)] for a normalized [outputDir] below the
    root and a [rest] free of [..] segments stays at or below [outputDir]. *)
Lemma join_inside (segs : list string) (rest : string) :
  Forall (fun x => valid_segment x = true) segs -> segs <> [] ->
  Forall (fun s => s <> "..") (split_slash rest) ->
  exists tail, path_join ("/" ++ String.concat "/" segs) rest = ("/" ++ String.concat "/" segs) ++ tail
               /\ (tail = EmptyString \/ exists t, tail = String "/" t).
Proof.
  intros Hv Hn Hr. destruct (concat_segs_facts segs Hv Hn) as [Nc Ec].
  pose proof (split_slash_concat segs Hn (valid_no_slash segs Hv)) as Sc.
  unfold path_join. change (nonempty ("/" ++ String.concat "/" segs)) with true.
  destruct (nonempty rest) eqn:Nr.
  - unfold path_normalize.
    change (("/" ++ String.concat "/" segs) ++ "/" ++ rest)
      with (String "/" (String.concat "/" segs ++ String "/" rest)).
    simpl String.eqb. rewrite is_absolute_slash.
    change (String "/" (String.concat "/" segs ++ String "/" rest))
      with ("/" ++ (String.concat "/" segs ++ String "/" rest)).
    rewrite (ends_with_slash_app "/" _ (nonempty_app_r _ (String "/" rest) eq_refl)).
    rewrite (ends_with_slash_app _ (String "/" rest) eq_refl).
    change (ends_with_slash (String "/" rest)) with (ends_with_slash ("/" ++ rest)).
    rewrite (ends_with_slash_app "/" rest Nr).
    unfold normalize_string. simpl split_slash. rewrite split_slash_app, Sc.
    simpl fold_left. rewrite fold_left_app, (fold_normalize_push segs) by exact Hv.
    rewrite app_nil_r, fold_normalize_keep by exact Hr.
    rewrite <- rev_app_distr, rev_involutive, concat_app_segs by exact Hn.
    destruct (String.concat "/" segs) as [|c0 s0] eqn:Ec0; [discriminate Nc|].
    simpl String.eqb. simpl negb.
    exists ((match filter kept_segment (split_slash rest) with
             | [] => EmptyString | _ => "/" ++ String.concat "/" (filter kept_segment (split_slash rest)) end)
            ++ (if ends_with_slash rest then "/" else EmptyString)).
    split.
    + simpl. rewrite string_app_assoc. reflexivity.
    + destruct (filter kept_segment (split_slash rest)); destruct (ends_with_slash rest); simpl; eauto.
  - unfold path_normalize.
    change (String.eqb ("/" ++ String.concat "/" segs) EmptyString) with false.
    unfold is_absolute. rewrite prefix_app.
    rewrite (ends_with_slash_app "/" _ Nc), Ec.
    unfold normalize_string. simpl split_slash. rewrite Sc.
    simpl fold_left. rewrite fold_normalize_push, app_nil_r, rev_involutive by exact Hv.
    destruct (String.concat "/" segs) as [|c0 s0] eqn:Ec0; [discriminate Nc|].
    exists EmptyString. simpl. rewrite string_app_nil. split; [reflexivity | left; reflexivity].
Qed.

Lemma fold_split_concat (segs st : list string) :
  Forall (fun x => valid_segment x = true) segs ->
  fold_left (normalize_step false) (split_slash (String.concat "/" segs)) st = (rev segs ++ st)%list.
Proof.
  intro Hv. destruct segs as [|s0 segs'].
  - reflexivity.
  - rewrite split_slash_concat by (discriminate || exact (valid_no_slash _ Hv)).
    apply fold_normalize_push. exact Hv.
Qed.

(** [path.join(outputDir, rest)] for a normalized absolute [outputDir] and a
    non-empty [rest]: the segments of [rest] are applied to those of
    [outputDir]. *)
Lemma join_abs_body (segs : list string) (rest : string) :
  Forall (fun x => valid_segment x = true) segs -> nonempty rest = true ->
  path_join ("/" ++ String.concat "/" segs) rest =
  let body := String.concat "/" (rev (fold_left (normalize_step false) (split_slash rest) (rev segs))) in
  if String.eqb body EmptyString then "/"
  else "/" ++ body ++ (if ends_with_slash rest then "/" else EmptyString).
Proof.
  intros Hv Nr. unfold path_join. change (nonempty ("/" ++ String.concat "/" segs)) with true.
  rewrite Nr. unfold path_normalize.
  change (("/" ++ String.concat "/" segs) ++ "/" ++ rest)
    with ("/" ++ (String.concat "/" segs ++ String "/" rest)).
  change (String.eqb ("/" ++ (String.concat "/" segs ++ String "/" rest)) EmptyString) with false.
  unfold is_absolute. rewrite prefix_app.
  rewrite (ends_with_slash_app "/" _ (nonempty_app_r _ (String "/" rest) eq_refl)).
  rewrite (ends_with_slash_app _ (String "/" rest) eq_refl).
  change (ends_with_slash (String "/" rest)) with (ends_with_slash ("/" ++ rest)).
  rewrite (ends_with_slash_app "/" rest Nr).
  unfold normalize_string.
  change (split_slash ("/" ++ (String.concat "/" segs ++ String "/" rest)))
    with (EmptyString :: split_slash (String.concat "/" segs ++ String "/" rest)).
  rewrite split_slash_app. simpl fold_left.
  rewrite fold_left_app, fold_split_concat, app_nil_r by exact Hv.
  reflexivity.
Qed.

Lemma in_scope_nested (prefix nsub r : string) :
  in_scope prefix nsub (prefix ++ nsub ++ "/" ++ r) = true.
Proof.
  unfold in_scope. cbv zeta. rewrite replace_first_prefix.
  change (EmptyString ++ nsub ++ "/" ++ r) with (nsub ++ "/" ++ r).
  unfold starts_with. rewrite <- string_app_assoc, prefix_app. apply orb_true_r.
Qed.

Lemma local_path_nested (prefix nsub out r : string) :
  local_path prefix nsub out (prefix ++ nsub ++ "/" ++ r) = path_join out r.
Proof.
  unfold local_path. cbv zeta. rewrite replace_first_prefix.
  change (EmptyString ++ nsub ++ "/" ++ r) with (nsub ++ "/" ++ r).
  rewrite <- string_app_assoc, replace_first_prefix. reflexivity.
Qed.

(** X9: [localPath] is [path.join(outputDir, rel.replace(sub + '/', ''))] and
    [path.join] resolves [..] segments: for every output directory there is
    a depth [n] such that an entry [<prefix><sub>/../../(n times)x] is in
    scope and its destination is [/x], outside the output directory. *)
Theorem output_dir_traversal (env : Env) (sub : string) (target : option string) :
  exists n, forall prefix nsub x, valid_segment x = true ->
    in_scope prefix nsub (prefix ++ nsub ++ "/" ++ dotdots n ++ x) = true /\
    local_path prefix nsub (output_dir_of env sub target)
               (prefix ++ nsub ++ "/" ++ dotdots n ++ x) = "/" ++ x.
Proof.
  destruct (output_dir_segments env sub target) as (segs & Hv & Ho).
  exists (length segs). intros prefix nsub x Hx. split; [apply in_scope_nested|].
  destruct (valid_segment_parts x Hx) as (E1 & E2 & E3 & Nx & Px).
  rewrite Ho, local_path_nested, join_abs_body by (exact Hv || apply nonempty_app_r, Px).
  cbv zeta. rewrite split_slash_dotdots, split_slash_single, fold_left_app by exact Nx.
  rewrite <- length_rev, fold_normalize_pop by (apply Forall_rev; exact Hv).
  rewrite skipn_all2 by lia.
  replace (fold_left (normalize_step false) [x] []) with [x]
    by (simpl; unfold normalize_step; rewrite E1, E2, E3; reflexivity).
  change (String.concat "/" (rev [x])) with x.
  rewrite E1, ends_with_slash_app, ends_with_slash_no_slash, string_app_nil by assumption.
  reflexivity.
Qed.

(** X10: Without [..] segments in the part of the entry path that is joined on,
    [localPath] stays inside a (non-root) output directory: it is the
    output directory itself or a path below it. *)
Theorem local_path_inside_output_dir (env : Env) (sub : string) (target : option string)
  (prefix nsub path : string) :
  output_dir_of env sub target <> "/" ->
  Forall (fun s => s <> "..")
    (split_slash (replace_first (nsub ++ "/") EmptyString (replace_first prefix EmptyString path))) ->
  exists tail, local_path prefix nsub (output_dir_of env sub target) path
               = output_dir_of env sub target ++ tail
               /\ (tail = EmptyString \/ exists t, tail = String "/" t).
Proof.
  intros Hroot Hr. destruct (output_dir_segments env sub target) as (segs & Hv & Ho).
  rewrite Ho in *. destruct segs as [|s0 segs'] eqn:Es; [contradiction Hroot; reflexivity|].
  unfold local_path. cbv zeta. apply join_inside; [exact Hv | discriminate | exact Hr].
Qed.

Lemma list_ascii_app (a b : string) :
  list_ascii_of_string (a ++ b) = (list_ascii_of_string a ++ list_ascii_of_string b)%list.
Proof. induction a as [|c a IH]; simpl; [reflexivity | rewrite IH; reflexivity]. Qed.

Lemma no_char_list (x : string) :
  no_char "/" x = true -> Forall (fun c => Ascii.eqb c "/" = false) (list_ascii_of_string x).
Proof.
  induction x as [|c x IH]; intro H; simpl; [constructor|].
  simpl in H. apply andb_true_iff in H as [H1 H2]. apply negb_true_iff in H1.
  constructor; [exact H1 | exact (IH H2)].
Qed.

Lemma take_non_slash_app (l l' : list ascii) :
  Forall (fun c => Ascii.eqb c "/" = false) l ->
  (l' = [] \/ exists l'', l' = "/"%char :: l'') ->
  take_non_slash (l ++ l') = l.
Proof.
  intros Hl Hl'. induction Hl as [|c l Hc _ IH]; simpl.
  - destruct Hl' as [-> | (l'' & ->)]; reflexivity.
  - rewrite Hc, IH. reflexivity.
Qed.

Lemma rev_list_ends_slash (d : string) :
  ends_with_slash d = true -> exists l, rev (list_ascii_of_string d) = "/"%char :: l.
Proof.
  induction d as [|c d IH]; intro H; [discriminate|].
  destruct d as [|c' d'].
  - simpl in H. apply Ascii.eqb_eq in H. subst. exists []. reflexivity.
  - destruct (IH H) as (l & Hl). exists (l ++ [c])%list.
    change (rev (list_ascii_of_string (String c (String c' d'))))
      with (rev (list_ascii_of_string (String c' d')) ++ [c])%list.
    rewrite Hl. reflexivity.
Qed.

Lemma strip_trailing_slash_app (a b : string) :
  nonempty b = true -> strip_trailing_slash (a ++ b) = a ++ strip_trailing_slash b.
Proof.
  intro Hb. induction a as [|c a IH]; [reflexivity|].
  change (String c a ++ b) with (String c (a ++ b)).
  destruct (a ++ b) eqn:E; [destruct a, b; discriminate|].
  simpl. rewrite <- IH. reflexivity.
Qed.

Lemma strip_trailing_slash_no_slash (x : string) :
  no_char "/" x = true -> strip_trailing_slash x = x.
Proof.
  induction x as [|c x IH]; intro H; [reflexivity|].
  simpl in H. apply andb_true_iff in H as [H1 H2]. apply negb_true_iff in H1.
  destruct x as [|c' x'].
  - simpl. rewrite H1. reflexivity.
  - change (strip_trailing_slash (String c (String c' x')))
      with (String c (strip_trailing_slash (String c' x'))).
    rewrite (IH H2). reflexivity.
Qed.

Lemma strip_trailing_slash_last (x : string) :
  strip_trailing_slash (x ++ "/") = x.
Proof.
  induction x as [|c x IH]; [reflexivity|].
  change (String c x ++ "/") with (String c (x ++ "/")).
  destruct (x ++ "/") eqn:E; [destruct x; discriminate|].
  change (strip_trailing_slash (String c (String a s))) with (String c (strip_trailing_slash (String a s))).
  rewrite IH. reflexivity.
Qed.

Lemma basename_last_segment (d x : string) :
  (d = EmptyString \/ ends_with_slash d = true) -> no_char "/" x = true -> nonempty x = true ->
  path_basename (d ++ x) = x.
Proof.
  intros Hd Hx Nx. unfold path_basename.
  rewrite list_ascii_app, rev_app_distr.
  pose proof (no_char_list x Hx) as Fx.
  destruct (rev (list_ascii_of_string x)) as [|c l] eqn:Er.
  - destruct x; [discriminate Nx|]. simpl in Er. destruct (rev (list_ascii_of_string x)); discriminate.
  - assert (Fr : Forall (fun c => Ascii.eqb c "/" = false) (c :: l))
      by (rewrite <- Er; apply Forall_rev; exact Fx).
    inversion Fr as [|? ? Hc _]; subst.
    change (drop_slashes ((c :: l) ++ rev (list_ascii_of_string d))%list)
      with (if Ascii.eqb c "/" then drop_slashes (l ++ rev (list_ascii_of_string d))%list
            else ((c :: l) ++ rev (list_ascii_of_string d))%list).
    rewrite Hc.
    rewrite take_non_slash_app.
    + rewrite <- Er, rev_involutive. apply string_of_list_ascii_of_string.
    + exact Fr.
    + destruct Hd as [-> | Hd]; [left; reflexivity | right; apply rev_list_ends_slash, Hd].
Qed.

Lemma str_slashes_strip (s : string) :
  str_forall (fun c => Ascii.eqb c "/") s = true ->
  str_forall (fun c => Ascii.eqb c "/") (strip_trailing_slash s) = true.
Proof.
  induction s as [|c s IH]; intro H; [reflexivity|].
  simpl in H. apply andb_true_iff in H as [H1 H2].
  destruct s as [|c' s'].
  - simpl. rewrite H1. reflexivity.
  - change (strip_trailing_slash (String c (String c' s')))
      with (String c (strip_trailing_slash (String c' s'))).
    simpl. rewrite H1. exact (IH H2).
Qed.

Lemma drop_slashes_all (l : list ascii) :
  forallb (fun c => Ascii.eqb c "/") l = true -> drop_slashes l = [].
Proof.
  induction l as [|c l IH]; intro H; [reflexivity|].
  simpl in H. apply andb_true_iff in H as [H1 H2]. simpl. rewrite H1. exact (IH H2).
Qed.

Lemma str_forall_list (f : ascii -> bool) (s : string) :
  str_forall f s = forallb f (list_ascii_of_string s).
Proof. induction s as [|c s IH]; simpl; [reflexivity | rewrite IH; reflexivity]. Qed.

(** X11: [path.basename(subfolder.replace(/\/$/, '')) || 'downloaded-folder']:
    the default output directory name is the last segment of the subfolder,
    with or without one trailing slash, whatever comes before; a subfolder
    made only of slashes (or empty) gives [downloaded-folder]. *)
Theorem default_dir_name_cases (d x : string) (trailing : bool) (s : string) :
  ((d = EmptyString \/ ends_with_slash d = true) -> no_char "/" x = true -> nonempty x = true ->
   default_dir_name (d ++ x ++ (if trailing then "/" else EmptyString)) = x) /\
  (str_forall (fun c => Ascii.eqb c "/") s = true -> default_dir_name s = "downloaded-folder").
Proof.
  split.
  - intros Hd Hx Nx. unfold default_dir_name.
    assert (Hs : strip_trailing_slash (d ++ x ++ (if trailing then "/" else EmptyString)) = d ++ x).
    { destruct trailing.
      - rewrite <- string_app_assoc. apply strip_trailing_slash_last.
      - rewrite string_app_nil, strip_trailing_slash_app, strip_trailing_slash_no_slash by assumption.
        reflexivity. }
    cbv zeta. rewrite Hs, basename_last_segment by assumption. rewrite Nx. reflexivity.
  - intro H. unfold default_dir_name, path_basename. cbv zeta.
    apply str_slashes_strip in H. rewrite str_forall_list in H.
    rewrite drop_slashes_all; [reflexivity|].
    apply forallb_forall. intros c Hc. apply in_rev in Hc.
    exact (proj1 (forallb_forall _ _) H c Hc).
Qed.

(** X8: [outputDir] is always an absolute, normalized path: a slash
    followed by segments joined by slashes, none of them empty, [.] or
    [..]. *)
Theorem output_dir_normalized (env : Env) (sub : string) (target : option string) :
  exists segs, Forall (fun x => valid_segment x = true) segs /\
               output_dir_of env sub target = "/" ++ String.concat "/" segs.
Proof. exact (output_dir_segments env sub target). Qed.

(* ------------------------------------------------------------------ *)
(** ** [main] *)

(** X12: [--version] anywhere among the arguments wins: [main] prints the
    version and exits with 0; otherwise [--help] anywhere, or no argument
    at all, prints the help and exits with 0; otherwise a first argument
    the parser rejects prints [Error: <message>] and exits with 1.  In
    none of these cases is [downloadFolder] run. *)
Theorem main_early_exits FS fs_stat fs_readdir fs_ensureDir fs_writeFile fs_remove
    version env fs args :
  let m := main FS fs_stat fs_readdir fs_ensureDir fs_writeFile fs_remove version env fs args in
  (existsb (String.eqb "--version") args = true ->
     m = mkMainResult FS [CLog ("github-folder-downloader v" ++ version)] (Some 0) None) /\
  (existsb (String.eqb "--version") args = false ->
     (existsb (String.eqb "--help") args = true \/ args = []) ->
     m = mkMainResult FS [CHelp] (Some 0) None) /\
  (forall a0 rest msg, args = a0 :: rest ->
     existsb (String.eqb "--version") args = false -> existsb (String.eqb "--help") args = false ->
     parseGitHubUrl a0 = Err msg ->
     m = mkMainResult FS [CError ("Error: " ++ msg)] (Some 1) None).
Proof.
  intro m. unfold m, main. split; [|split].
  - intro H. rewrite H. reflexivity.
  - intros H [Hh | ->]; rewrite H; [rewrite Hh|]; reflexivity.
  - intros a0 rest msg -> Hv Hh Hp. rewrite Hv, Hh. cbn [orb length Nat.eqb hd].
    rewrite Hp. reflexivity.
Qed.

(** X13: how [main] hands its arguments to [downloadFolder] once the first
    argument parses: with a subfolder from a tree URL, the second argument
    is the target; without one, the second argument is the subfolder and
    the third the target; a missing or empty subfolder argument prints
    [Subfolder path is required.] and the help, exits with 1 and runs
    nothing.  The repository is passed as [owner/repo#branch], and the exit
    status is that of the run. *)
Theorem main_dispatch FS fs_stat fs_readdir fs_ensureDir fs_writeFile fs_remove
    version env fs a0 rest p :
  existsb (String.eqb "--version") (a0 :: rest) = false ->
  existsb (String.eqb "--help") (a0 :: rest) = false ->
  parseGitHubUrl a0 = Ok p ->
  let m := main FS fs_stat fs_readdir fs_ensureDir fs_writeFile fs_remove version env fs (a0 :: rest) in
  let run := fun s t => downloadFolder FS fs_stat fs_readdir fs_ensureDir fs_writeFile fs_remove
                          env fs (repo_url_of p) s t in
  (forall sf, subfolder p = Some sf -> nonempty sf = true ->
     m = mkMainResult FS [] (rr_exit FS (run sf (nth_error rest 0))) (Some (run sf (nth_error rest 0)))) /\
  (truthy (subfolder p) = false -> forall s, nth_error rest 0 = Some s -> nonempty s = true ->
     m = mkMainResult FS [] (rr_exit FS (run s (nth_error rest 1))) (Some (run s (nth_error rest 1)))) /\
  (truthy (subfolder p) = false -> (rest = [] \/ nth_error rest 0 = Some EmptyString) ->
     m = mkMainResult FS [CError subfolder_required; CHelp] (Some 1) None).
Proof.
  intros Hv Hh Hp m run. unfold m, main. rewrite Hv, Hh. cbn [orb length Nat.eqb hd].
  rewrite Hp. split; [|split].
  - intros sf Hs Hn. rewrite Hs. cbn [truthy negb andb]. rewrite Hn.
    cbn [truthy negb andb]. rewrite Hn. reflexivity.
  - intros Ht s Hs Hn. rewrite Ht.
    destruct rest as [|s1 rest']; [discriminate Hs|]. cbn [nth_error] in Hs. injection Hs as ->.
    cbn [negb andb length Nat.ltb Nat.leb nth_error truthy]. rewrite Hn. reflexivity.
  - intros Ht [-> | Hs]; rewrite Ht; [reflexivity|].
    destruct rest as [|s1 rest']; [discriminate Hs|]. cbn [nth_error] in Hs |- *.
    injection Hs as ->. reflexivity.
Qed.

(** X14: the [owner/repo#branch] string [main] rebuilds for [downloadFolder]
    parses back to the same owner, repository and (non-empty) branch, when
    owner and repository consist of [\w.-] characters and the branch has no
    line break; an empty branch is left out
    ([parsed.branch ? `#${parsed.branch}` : '']). *)
Theorem repo_url_roundtrip (p : RepoRef) :
  nonempty (owner p) = true -> str_forall is_shorthand_char (owner p) = true ->
  nonempty (repo p) = true -> str_forall is_shorthand_char (repo p) = true ->
  match branch p with Some t => no_line_terminator t = true | None => True end ->
  parseGitHubUrl (repo_url_of p)
  = Ok (mkRepoRef (owner p) (repo p)
          (match branch p with Some t => if nonempty t then Some t else None | None => None end) None).
Proof.
  destruct p as [o r b sf]. cbn [owner repo branch]. intros Ho1 Ho2 Hr1 Hr2 Hb.
  unfold repo_url_of. cbn [owner repo branch].
  destruct b as [t|]; [destruct (nonempty t) eqn:Nt|].
  - change (o ++ "/" ++ r ++ "#" ++ t) with (o ++ "/" ++ r ++ hash_part (Some t)).
    apply parse_shorthand; try assumption. rewrite Nt, Hb. reflexivity.
  - change (o ++ "/" ++ r ++ EmptyString) with (o ++ "/" ++ r ++ hash_part None).
    apply parse_shorthand; auto.
  - change (o ++ "/" ++ r ++ EmptyString) with (o ++ "/" ++ r ++ hash_part None).
    apply parse_shorthand; auto.
Qed.

Lemma class_no_slash (s : string) :
  str_forall is_shorthand_char s = true -> no_char "/" s = true.
Proof.
  induction s as [|c s IH]; intro H; [reflexivity|].
  simpl in H. apply andb_true_iff in H as [H1 H2].
  destruct (shorthand_char_special c H1) as [_ E]. unfold no_char. simpl. rewrite E.
  exact (IH H2).
Qed.

Lemma str_forall_false_split (f : ascii -> bool) (s : string) :
  str_forall f s = false ->
  exists a c b, s = a ++ String c b /\ str_forall f a = true /\ f c = false.
Proof.
  induction s as [|c s IH]; intro H; [discriminate H|].
  simpl in H. destruct (f c) eqn:Hc.
  - destruct (IH H) as (a & c' & b & -> & Ha & Hc'). exists (String c a), c', b.
    simpl. rewrite Hc, Ha. auto.
  - exists EmptyString, c, s. auto.
Qed.

Lemma prefix_split (p x : string) : String.prefix p x = true -> x = p ++ drop (String.length p) x.
Proof.
  revert x. induction p as [|c p IH]; intros x H; [reflexivity|].
  destruct x as [|d x]; [discriminate H|]. apply prefix_cons in H as [-> H].
  simpl. f_equal. exact (IH x H).
Qed.

Lemma generic_match_some (s : string) m :
  generic_match s = Some m ->
  exists t1 t2, s = t1 ++ "github.com/" ++ t2 /\ owner_loop EmptyString t2 = Some m.
Proof.
  assert (Hat : forall x, generic_at x = Some m ->
            exists t2, x = "github.com/" ++ t2 /\ owner_loop EmptyString t2 = Some m).
  { intros x Hx. unfold generic_at in Hx. destruct (String.prefix "github.com/" x) eqn:Hp;
      [|discriminate Hx].
    exists (drop 11 x). split; [exact (prefix_split _ _ Hp) | exact Hx]. }
  induction s as [|c s IH]; intro H.
  - destruct (Hat _ H) as (t2 & E & _). destruct t2; discriminate E.
  - change (generic_match (String c s)) with
      (match generic_at (String c s) with Some m => Some m | None => generic_match s end) in H.
    destruct (generic_at (String c s)) eqn:E.
    + injection H as ->. destruct (Hat _ E) as (t2 & -> & Ho). exists EmptyString, t2. auto.
    + destruct (IH H) as (t1 & t2 & -> & Ho). exists (String c t1), t2. auto.
Qed.

Lemma owner_loop_slash (acc t : string) m : owner_loop acc t = Some m -> no_char "/" t = false.
Proof.
  revert acc. induction t as [|c t IH]; intros acc H; [discriminate H|].
  simpl in H. destruct (is_line_terminator c); [discriminate H|].
  unfold no_char. simpl. fold (no_char "/" t).
  destruct t as [|d u]; [discriminate H|].
  destruct (Ascii.eqb d "/") eqn:Ed.
  - unfold no_char. simpl. rewrite Ed. apply andb_false_r.
  - rewrite (IH (acc ++ String c EmptyString) H). apply andb_false_r.
Qed.

Lemma slash_count_app (a b : string) : slash_count (a ++ b) = slash_count a + slash_count b.
Proof. induction a as [|c a IH]; simpl; [reflexivity | rewrite IH; lia]. Qed.

Lemma slash_count_no_char (x : string) : no_char "/" x = true -> slash_count x = 0.
Proof.
  induction x as [|c x IH]; intro H; [reflexivity|].
  simpl in H. apply andb_true_iff in H as [H1 H2]. apply negb_true_iff in H1.
  simpl. rewrite H1, (IH H2). reflexivity.
Qed.

Lemma slash_count_pos (x : string) : no_char "/" x = false -> 1 <= slash_count x.
Proof.
  induction x as [|c x IH]; intro H; [discriminate H|].
  unfold no_char in H. simpl in H. fold (no_char "/" x) in H.
  simpl. destruct (Ascii.eqb c "/"); simpl in H; [lia|]. specialize (IH H). lia.
Qed.

(** The generic pattern needs two slashes: one after [github.com] and one
    after the owner. *)
Lemma generic_match_two_slashes (s : string) m : generic_match s = Some m -> 2 <= slash_count s.
Proof.
  intro H. destruct (generic_match_some s m H) as (t1 & t2 & -> & Ho).
  apply owner_loop_slash, slash_count_pos in Ho.
  rewrite !slash_count_app. change (slash_count "github.com/") with 1. lia.
Qed.

Lemma prefix_no_double_slash (a q o : string) (c : ascii) (x : string) :
  no_char "/" a = true -> no_char "/" o = true -> Ascii.eqb c "/" = false ->
  String.prefix (a ++ String "/" (String "/" q)) (o ++ String "/" (String c x)) = false.
Proof.
  revert o. induction a as [|e a IH]; intros o Ha Ho Hc;
    destruct (String.prefix _ _) eqn:E; try reflexivity; exfalso.
  - destruct o as [|d o]; cbn [String.append] in E.
    + apply prefix_cons in E as [_ E]. apply prefix_cons in E as [<- _].
      rewrite Ascii.eqb_refl in Hc. discriminate Hc.
    + apply prefix_cons in E as [<- _]. unfold no_char in Ho. simpl in Ho.
      discriminate Ho.
  - unfold no_char in Ha. cbn [str_forall] in Ha. apply andb_true_iff in Ha as [Ha1 Ha2].
    destruct o as [|d o]; cbn [String.append] in E.
    + apply prefix_cons in E as [-> _]. rewrite Ascii.eqb_refl in Ha1. discriminate Ha1.
    + apply prefix_cons in E as [<- E]. unfold no_char in Ho. cbn [str_forall] in Ho.
      apply andb_true_iff in Ho as [_ Ho2].
      rewrite (IH o Ha2 Ho2 Hc) in E. discriminate E.
Qed.

Lemma downloadFolder_fetch_given_branch FS fs_stat fs_readdir fs_ensureDir fs_writeFile fs_remove
    env fs repoUrl sub target rf b :
  parseGitHubUrl repoUrl = Ok rf -> branch rf = Some b -> nonempty b = true ->
  exists rest, rr_trace FS (downloadFolder FS fs_stat fs_readdir fs_ensureDir fs_writeFile fs_remove
                             env fs repoUrl sub target)
               = EvFetch (zip_url (owner rf) (repo rf) b) :: rest.
Proof.
  intros Hp Hb Hn. unfold downloadFolder, prepare. rewrite Hp, Hb, Hn. cbn beta iota zeta.
  destruct (env_zip env (zip_url (owner rf) (repo rf) b)) as [[entries|]| |]; simpl;
    try (eexists; reflexivity).
  apply after_download_extends.
Qed.

Lemma tree_url_not_flag (flag o r b sf : string) (rest : list string) :
  String.prefix "--" flag = true ->
  existsb (String.eqb flag) rest = false ->
  existsb (String.eqb flag) (("https://github.com/" ++ o ++ "/" ++ r ++ "/tree/" ++ b ++ "/" ++ sf) :: rest)
  = false.
Proof.
  intros Hf H. cbn [existsb]. rewrite H, orb_false_r.
  destruct (String.eqb flag _) eqn:E; [|reflexivity].
  apply String.eqb_eq in E. rewrite E in Hf. discriminate Hf.
Qed.

Lemma parse_tree_url (o r b sf : string) :
  nonempty o = true -> no_char "/" o = true ->
  nonempty r = true -> no_char "/" r = true ->
  nonempty b = true -> no_char "/" b = true ->
  nonempty sf = true -> no_line_terminator sf = true ->
  parseGitHubUrl ("https://github.com/" ++ o ++ "/" ++ r ++ "/tree/" ++ b ++ "/" ++ sf)
  = Ok (mkRepoRef o r (Some b) (Some sf)).
Proof. intros. unfold parseGitHubUrl. rewrite tree_match_url by assumption. reflexivity. Qed.

Lemma main_subfolder_run FS fs_stat fs_readdir fs_ensureDir fs_writeFile fs_remove
    version env fs a0 rest p sf :
  existsb (String.eqb "--version") (a0 :: rest) = false ->
  existsb (String.eqb "--help") (a0 :: rest) = false ->
  parseGitHubUrl a0 = Ok p -> subfolder p = Some sf -> nonempty sf = true ->
  let run := downloadFolder FS fs_stat fs_readdir fs_ensureDir fs_writeFile fs_remove
               env fs (repo_url_of p) sf (nth_error rest 0) in
  main FS fs_stat fs_readdir fs_ensureDir fs_writeFile fs_remove version env fs (a0 :: rest)
  = mkMainResult FS [] (rr_exit FS run) (Some run).
Proof.
  intros Hv Hh Hp Hs Hn run. unfold main. rewrite Hv, Hh. cbn [orb length Nat.eqb hd].
  rewrite Hp, Hs. cbn [truthy negb andb]. rewrite Hn.
  cbn [truthy negb andb]. rewrite Hn. reflexivity.
Qed.

(** X15: for a tree URL [https://github.com/o/r/tree/b/sf] whose owner and
    repository consist of [\w.-] characters (and whose branch has no line
    break), [main] runs [downloadFolder] on [o/r#b] with subfolder [sf] and
    the next argument as target, and the run's first request is the ZIP of
    branch [b]: the default branch is never looked up. *)
Theorem main_tree_url_first_fetch FS fs_stat fs_readdir fs_ensureDir fs_writeFile fs_remove
    version env fs o r b sf rest :
  nonempty o = true -> str_forall is_shorthand_char o = true ->
  nonempty r = true -> str_forall is_shorthand_char r = true ->
  nonempty b = true -> no_char "/" b = true -> no_line_terminator b = true ->
  nonempty sf = true -> no_line_terminator sf = true ->
  existsb (String.eqb "--version") rest = false -> existsb (String.eqb "--help") rest = false ->
  exists run,
    main FS fs_stat fs_readdir fs_ensureDir fs_writeFile fs_remove version env fs
         (("https://github.com/" ++ o ++ "/" ++ r ++ "/tree/" ++ b ++ "/" ++ sf) :: rest)
    = mkMainResult FS [] (rr_exit FS run) (Some run) /\
    run = downloadFolder FS fs_stat fs_readdir fs_ensureDir fs_writeFile fs_remove
            env fs (o ++ "/" ++ r ++ "#" ++ b) sf (nth_error rest 0) /\
    exists tl, rr_trace FS run = EvFetch (zip_url o r b) :: tl.
Proof.
  intros Ho1 Ho2 Hr1 Hr2 Hb1 Hb2 Hb3 Hs1 Hs2 Hv Hh.
  pose proof (parse_tree_url o r b sf Ho1 (class_no_slash o Ho2) Hr1 (class_no_slash r Hr2)
                Hb1 Hb2 Hs1 Hs2) as Hp.
  assert (Hu : repo_url_of (mkRepoRef o r (Some b) (Some sf)) = o ++ "/" ++ r ++ "#" ++ b).
  { unfold repo_url_of. cbn [owner repo branch]. rewrite Hb1. reflexivity. }
  eexists. split; [|split; [reflexivity|]].
  - rewrite (main_subfolder_run FS fs_stat fs_readdir fs_ensureDir fs_writeFile fs_remove
               version env fs _ rest _ sf ltac:(apply tree_url_not_flag; [reflexivity | assumption])
               ltac:(apply tree_url_not_flag; [reflexivity | assumption]) Hp eq_refl Hs1).
    cbv zeta. rewrite Hu. reflexivity.
  - assert (Hq : parseGitHubUrl (o ++ "/" ++ r ++ "#" ++ b) = Ok (mkRepoRef o r (Some b) None)).
    { change (o ++ "/" ++ r ++ "#" ++ b) with (o ++ "/" ++ r ++ hash_part (Some b)).
      apply parse_shorthand; try assumption. rewrite Hb1, Hb3. reflexivity. }
    exact (downloadFolder_fetch_given_branch FS fs_stat fs_readdir fs_ensureDir fs_writeFile
             fs_remove env fs _ sf (nth_error rest 0) _ b Hq eq_refl Hb1).
Qed.

(** X16: [main] accepts a tree URL whose owner has a character outside
    [\w.-] (the tree pattern only excludes [/]), but the [owner/repo#branch]
    string it rebuilds matches no pattern: the run fails at once with the
    invalid-format message and exit code 1, before any request. *)
Theorem main_tree_url_owner_rejected FS fs_stat fs_readdir fs_ensureDir fs_writeFile fs_remove
    version env fs o r b sf rest :
  nonempty o = true -> no_char "/" o = true -> str_forall is_shorthand_char o = false ->
  nonempty r = true -> no_char "/" r = true ->
  nonempty b = true -> no_char "/" b = true ->
  nonempty sf = true -> no_line_terminator sf = true ->
  existsb (String.eqb "--version") rest = false -> existsb (String.eqb "--help") rest = false ->
  main FS fs_stat fs_readdir fs_ensureDir fs_writeFile fs_remove version env fs
       (("https://github.com/" ++ o ++ "/" ++ r ++ "/tree/" ++ b ++ "/" ++ sf) :: rest)
  = mkMainResult FS [] (Some 1) (Some (mkRunResult FS fs [EvFail invalid_format_msg] (Some 1))).
Proof.
  intros Ho1 Ho2 Ho3 Hr1 Hr2 Hb1 Hb2 Hs1 Hs2 Hv Hh.
  pose proof (parse_tree_url o r b sf Ho1 Ho2 Hr1 Hr2 Hb1 Hb2 Hs1 Hs2) as Hp.
  rewrite (main_subfolder_run FS fs_stat fs_readdir fs_ensureDir fs_writeFile fs_remove
             version env fs _ rest _ sf ltac:(apply tree_url_not_flag; [reflexivity | assumption])
             ltac:(apply tree_url_not_flag; [reflexivity | assumption]) Hp eq_refl Hs1).
  assert (Hu : repo_url_of (mkRepoRef o r (Some b) (Some sf)) = o ++ "/" ++ r ++ "#" ++ b).
  { unfold repo_url_of. cbn [owner repo branch]. rewrite Hb1. reflexivity. }
  assert (Hrej : parseGitHubUrl (o ++ "/" ++ r ++ "#" ++ b) = Err invalid_format_msg).
  { unfold parseGitHubUrl.
    destruct (tree_match (o ++ "/" ++ r ++ "#" ++ b)) eqn:Et.
    { exfalso. apply tree_match_prefix in Et.
      destruct r as [|c r']; [discriminate Hr1|].
      change ("https://github.com/") with ("https:" ++ String "/" (String "/" "github.com/")) in Et.
      change (o ++ "/" ++ String c r' ++ "#" ++ b) with (o ++ String "/" (String c (r' ++ "#" ++ b))) in Et.
      simpl in Hr2. apply andb_true_iff in Hr2 as [Hc _]. apply negb_true_iff in Hc.
      rewrite prefix_no_double_slash in Et by (reflexivity || assumption). discriminate Et. }
    destruct (shorthand_match (o ++ "/" ++ r ++ "#" ++ b)) eqn:Es.
    { exfalso. destruct (str_forall_false_split _ _ Ho3) as (o1 & c & o2 & -> & Ha & Hc).
      unfold shorthand_match in Es.
      rewrite string_app_assoc in Es. change (String c o2 ++ "/" ++ r ++ "#" ++ b)
        with (String c (o2 ++ "/" ++ r ++ "#" ++ b)) in Es.
      rewrite span_class_app in Es by assumption.
      rewrite no_char_app in Ho2. apply andb_true_iff in Ho2 as [_ Ho2].
      simpl in Ho2. apply andb_true_iff in Ho2 as [Hc' _]. apply negb_true_iff in Hc'.
      rewrite Hc', andb_false_r in Es. discriminate Es. }
    destruct (generic_match (o ++ "/" ++ r ++ "#" ++ b)) eqn:Eg; [|reflexivity].
    exfalso. apply generic_match_two_slashes in Eg.
    rewrite !slash_count_app, (slash_count_no_char o Ho2), (slash_count_no_char r Hr2),
      (slash_count_no_char b Hb2) in Eg.
    change (slash_count "/") with 1 in Eg. change (slash_count "#") with 0 in Eg. lia. }
  unfold downloadFolder, prepare. rewrite Hu, Hrej. reflexivity.
Qed.

(* ------------------------------------------------------------------ *)
(** ** The properties above on concrete runs *)

Lemma downloadFolder_removes_only_temp_witness :
  In (EvRemove "/tmp/gh-folder-1700000000000")
     (rr_trace _ (ConcreteFS.runC (sample_env sample_entries) root_fs "o/repo#branch" "nothere"
                                  (Some "/output"))) /\
  "/tmp/gh-folder-1700000000000" = temp_dir_of (sample_env sample_entries).
Proof.
  assert (H : In (EvRemove "/tmp/gh-folder-1700000000000")
     (rr_trace _ (ConcreteFS.runC (sample_env sample_entries) root_fs "o/repo#branch" "nothere"
                                  (Some "/output"))))
    by (vm_compute; repeat first [left; reflexivity | right]).
  split; [exact H|].
  unfold ConcreteFS.runC in H.
  exact (downloadFolder_removes_only_temp ConcreteFS.CFS ConcreteFS.stat ConcreteFS.readdir
           ConcreteFS.ensureDir ConcreteFS.writeFile ConcreteFS.remove
           (sample_env sample_entries) root_fs "o/repo#branch" "nothere" (Some "/output") _ H).
Defined.

Lemma downloadFolder_success_leaves_temp_witness :
  let r := ConcreteFS.runC (sample_env sample_entries) root_fs "o/repo#branch" "keep" (Some "/output") in
  rr_exit _ r = None /\
  In (EvEnsureDir "/tmp/gh-folder-1700000000000" None) (rr_trace _ r) /\
  (forall p, ~ In (EvRemove p) (rr_trace _ r)).
Proof.
  intro r. assert (H : rr_exit _ r = None) by (vm_compute; reflexivity).
  split; [exact H|]. unfold r, ConcreteFS.runC in *.
  exact (downloadFolder_success_leaves_temp ConcreteFS.CFS ConcreteFS.stat ConcreteFS.readdir
           ConcreteFS.ensureDir ConcreteFS.writeFile ConcreteFS.remove
           (sample_env sample_entries) root_fs "o/repo#branch" "keep" (Some "/output") H).
Defined.

Lemma downloadFolder_parse_error_witness :
  parseGitHubUrl "not-a-repo" = Err invalid_format_msg /\
  ConcreteFS.runC (sample_env sample_entries) root_fs "not-a-repo" "keep" None
  = mkRunResult _ root_fs [EvFail invalid_format_msg] (Some 1).
Proof.
  assert (H : parseGitHubUrl "not-a-repo" = Err invalid_format_msg) by (vm_compute; reflexivity).
  split; [exact H|]. unfold ConcreteFS.runC.
  exact (downloadFolder_parse_error ConcreteFS.CFS ConcreteFS.stat ConcreteFS.readdir
           ConcreteFS.ensureDir ConcreteFS.writeFile ConcreteFS.remove
           (sample_env sample_entries) root_fs "not-a-repo" "keep" None _ H).
Defined.

Lemma downloadFolder_branch_choice_witness :
  (exists rest, rr_trace _ (ConcreteFS.runC (sample_env sample_entries) root_fs "o/repo#branch" "keep" None)
                = EvFetch (zip_url "o" "repo" "branch") :: rest) /\
  (exists rest, rr_trace _ (ConcreteFS.runC (sample_env sample_entries) root_fs "o/repo" "keep" None)
                = EvFetch (metadata_url "o" "repo") :: EvFetch (zip_url "o" "repo" "main") :: rest).
Proof.
  unfold ConcreteFS.runC. split.
  - apply (proj1 (downloadFolder_branch_choice ConcreteFS.CFS ConcreteFS.stat ConcreteFS.readdir
           ConcreteFS.ensureDir ConcreteFS.writeFile ConcreteFS.remove
           (sample_env sample_entries) root_fs "o/repo#branch" "keep" None
           (mkRepoRef "o" "repo" (Some "branch") None) ltac:(vm_compute; reflexivity)));
      reflexivity.
  - apply (proj2 (downloadFolder_branch_choice ConcreteFS.CFS ConcreteFS.stat ConcreteFS.readdir
           ConcreteFS.ensureDir ConcreteFS.writeFile ConcreteFS.remove
           (sample_env sample_entries) root_fs "o/repo" "keep" None
           (mkRepoRef "o" "repo" None None) ltac:(vm_compute; reflexivity)));
      reflexivity.
Defined.

Lemma downloadFolder_metadata_failure_witness :
  ConcreteFS.runC (mkEnv "/work" "/tmp" "1" (fun _ _ => RespNotOk "Not Found")
                         (fun _ => RespNotOk "Not Found"))
                  root_fs "o/missing" "keep" None
  = mkRunResult _ root_fs [EvFetch (metadata_url "o" "missing");
                           EvFail ("Failed to fetch repo metadata: " ++ "Not Found")] (Some 1).
Proof.
  unfold ConcreteFS.runC.
  exact (downloadFolder_metadata_failure ConcreteFS.CFS ConcreteFS.stat ConcreteFS.readdir
           ConcreteFS.ensureDir ConcreteFS.writeFile ConcreteFS.remove
           (mkEnv "/work" "/tmp" "1" (fun _ _ => RespNotOk "Not Found") (fun _ => RespNotOk "Not Found"))
           root_fs "o/missing" "keep" None (mkRepoRef "o" "missing" None None) "Not Found"
           ltac:(vm_compute; reflexivity) eq_refl eq_refl).
Defined.

Lemma downloadFolder_zip_failure_witness :
  ConcreteFS.runC (sample_env sample_entries) root_fs "o/repo#other" "keep" None
  = mkRunResult _ (ConcreteFS.remove "/tmp/gh-folder-1700000000000" root_fs)
      [EvFetch (zip_url "o" "repo" "other"); EvFail ("Failed to download ZIP: " ++ "Not Found");
       EvRemove "/tmp/gh-folder-1700000000000"] (Some 1) /\
  ConcreteFS.runC (sample_env sample_entries) root_fs "o/repo" "keep" None
  = mkRunResult _ (ConcreteFS.remove "/tmp/gh-folder-1700000000000" root_fs)
      [EvFetch (metadata_url "o" "repo"); EvFetch (zip_url "o" "repo" "main");
       EvFail ("Failed to download ZIP: " ++ "Not Found");
       EvRemove "/tmp/gh-folder-1700000000000"] (Some 1).
Proof.
  unfold ConcreteFS.runC. split.
  - exact (proj1 (downloadFolder_zip_failure ConcreteFS.CFS ConcreteFS.stat ConcreteFS.readdir
             ConcreteFS.ensureDir ConcreteFS.writeFile ConcreteFS.remove
             (sample_env sample_entries) root_fs "o/repo#other" "keep" None
             (mkRepoRef "o" "repo" (Some "other") None) "Not Found"
             ltac:(vm_compute; reflexivity))
             "other" eq_refl eq_refl ltac:(vm_compute; reflexivity)).
  - exact (proj2 (downloadFolder_zip_failure ConcreteFS.CFS ConcreteFS.stat ConcreteFS.readdir
             ConcreteFS.ensureDir ConcreteFS.writeFile ConcreteFS.remove
             (sample_env sample_entries) root_fs "o/repo" "keep" None
             (mkRepoRef "o" "repo" None None) "Not Found"
             ltac:(vm_compute; reflexivity))
             "main" eq_refl eq_refl ltac:(vm_compute; reflexivity)).
Defined.

Lemma output_dir_traversal_witness :
  exists n,
    in_scope "repo-branch/" "keep" ("repo-branch/" ++ "keep" ++ "/" ++ dotdots n ++ "evil.sh") = true /\
    local_path "repo-branch/" "keep" (output_dir_of (sample_env sample_entries) "keep" (Some "out/dir"))
               ("repo-branch/" ++ "keep" ++ "/" ++ dotdots n ++ "evil.sh") = "/evil.sh".
Proof.
  destruct (output_dir_traversal (sample_env sample_entries) "keep" (Some "out/dir")) as [n H].
  exists n. apply H. reflexivity.
Defined.

Lemma local_path_inside_output_dir_witness :
  exists tail,
    local_path "repo-branch/" "keep" (output_dir_of (sample_env sample_entries) "keep" (Some "/output"))
               "repo-branch/keep/sub/./b.txt"
    = output_dir_of (sample_env sample_entries) "keep" (Some "/output") ++ tail
    /\ (tail = EmptyString \/ exists t, tail = String "/" t).
Proof.
  apply local_path_inside_output_dir.
  - vm_compute. discriminate.
  - vm_compute. repeat first [constructor | discriminate].
Defined.

Lemma default_dir_name_cases_witness :
  default_dir_name ("src/" ++ "components" ++ "/") = "components" /\
  default_dir_name "/" = "downloaded-folder".
Proof.
  destruct (default_dir_name_cases "src/" "components" true "/") as [H1 H2]. split.
  - apply H1; [right | |]; reflexivity.
  - apply H2. reflexivity.
Defined.

Lemma main_early_exits_witness :
  let m := main ConcreteFS.CFS ConcreteFS.stat ConcreteFS.readdir ConcreteFS.ensureDir
             ConcreteFS.writeFile ConcreteFS.remove "1.0.0" (sample_env sample_entries) root_fs in
  m ["o/repo"; "keep"; "--version"; "--help"]
    = mkMainResult _ [CLog ("github-folder-downloader v" ++ "1.0.0")] (Some 0) None /\
  m ["o/repo"; "keep"; "--help"] = mkMainResult _ [CHelp] (Some 0) None /\
  m ["not-a-repo"; "keep"] = mkMainResult _ [CError ("Error: " ++ invalid_format_msg)] (Some 1) None.
Proof.
  intro m. unfold m. split; [|split].
  - apply (main_early_exits ConcreteFS.CFS ConcreteFS.stat ConcreteFS.readdir ConcreteFS.ensureDir
             ConcreteFS.writeFile ConcreteFS.remove "1.0.0" (sample_env sample_entries) root_fs
             ["o/repo"; "keep"; "--version"; "--help"]).
    reflexivity.
  - apply (main_early_exits ConcreteFS.CFS ConcreteFS.stat ConcreteFS.readdir ConcreteFS.ensureDir
             ConcreteFS.writeFile ConcreteFS.remove "1.0.0" (sample_env sample_entries) root_fs
             ["o/repo"; "keep"; "--help"]); [reflexivity | left; reflexivity].
  - apply (main_early_exits ConcreteFS.CFS ConcreteFS.stat ConcreteFS.readdir ConcreteFS.ensureDir
             ConcreteFS.writeFile ConcreteFS.remove "1.0.0" (sample_env sample_entries) root_fs
             ["not-a-repo"; "keep"]) with (a0 := "not-a-repo") (rest := ["keep"]);
      [reflexivity | reflexivity | reflexivity | vm_compute; reflexivity].
Defined.

Lemma main_dispatch_witness :
  let m := main ConcreteFS.CFS ConcreteFS.stat ConcreteFS.readdir ConcreteFS.ensureDir
             ConcreteFS.writeFile ConcreteFS.remove "1.0.0" (sample_env sample_entries) root_fs in
  let run := ConcreteFS.runC (sample_env sample_entries) root_fs in
  m ["https://github.com/o/repo/tree/branch/keep"; "/output"]
    = mkMainResult _ [] (rr_exit _ (run "o/repo#branch" "keep" (Some "/output")))
                        (Some (run "o/repo#branch" "keep" (Some "/output"))) /\
  m ["o/repo#branch"; "keep"; "/output"]
    = mkMainResult _ [] (rr_exit _ (run "o/repo#branch" "keep" (Some "/output")))
                        (Some (run "o/repo#branch" "keep" (Some "/output"))) /\
  m ["o/repo#branch"; EmptyString; "/output"]
    = mkMainResult _ [CError subfolder_required; CHelp] (Some 1) None.
Proof.
  intros m run. unfold m, run, ConcreteFS.runC. split; [|split].
  - apply (main_dispatch ConcreteFS.CFS ConcreteFS.stat ConcreteFS.readdir ConcreteFS.ensureDir
             ConcreteFS.writeFile ConcreteFS.remove "1.0.0" (sample_env sample_entries) root_fs
             "https://github.com/o/repo/tree/branch/keep" ["/output"]
             (mkRepoRef "o" "repo" (Some "branch") (Some "keep")) eq_refl eq_refl
             ltac:(vm_compute; reflexivity)); reflexivity.
  - apply (main_dispatch ConcreteFS.CFS ConcreteFS.stat ConcreteFS.readdir ConcreteFS.ensureDir
             ConcreteFS.writeFile ConcreteFS.remove "1.0.0" (sample_env sample_entries) root_fs
             "o/repo#branch" ["keep"; "/output"]
             (mkRepoRef "o" "repo" (Some "branch") None) eq_refl eq_refl
             ltac:(vm_compute; reflexivity)); reflexivity.
  - apply (main_dispatch ConcreteFS.CFS ConcreteFS.stat ConcreteFS.readdir ConcreteFS.ensureDir
             ConcreteFS.writeFile ConcreteFS.remove "1.0.0" (sample_env sample_entries) root_fs
             "o/repo#branch" [EmptyString; "/output"]
             (mkRepoRef "o" "repo" (Some "branch") None) eq_refl eq_refl
             ltac:(vm_compute; reflexivity)); [reflexivity | right; reflexivity].
Defined.

Lemma repo_url_roundtrip_witness :
  parseGitHubUrl (repo_url_of (mkRepoRef "metallicjs" "templates" (Some "dev") (Some "src/lib")))
  = Ok (mkRepoRef "metallicjs" "templates" (Some "dev") None).
Proof.
  apply (repo_url_roundtrip (mkRepoRef "metallicjs" "templates" (Some "dev") (Some "src/lib")));
    reflexivity.
Defined.

Lemma main_tree_url_first_fetch_witness :
  exists run,
    main ConcreteFS.CFS ConcreteFS.stat ConcreteFS.readdir ConcreteFS.ensureDir
         ConcreteFS.writeFile ConcreteFS.remove "1.0.0" (sample_env sample_entries) root_fs
         (("https://github.com/" ++ "o" ++ "/" ++ "repo" ++ "/tree/" ++ "branch" ++ "/" ++ "keep") :: ["/output"])
    = mkMainResult _ [] (rr_exit _ run) (Some run) /\
    run = ConcreteFS.runC (sample_env sample_entries) root_fs ("o" ++ "/" ++ "repo" ++ "#" ++ "branch")
            "keep" (Some "/output") /\
    exists tl, rr_trace _ run = EvFetch (zip_url "o" "repo" "branch") :: tl.
Proof.
  unfold ConcreteFS.runC.
  apply (main_tree_url_first_fetch ConcreteFS.CFS ConcreteFS.stat ConcreteFS.readdir
           ConcreteFS.ensureDir ConcreteFS.writeFile ConcreteFS.remove "1.0.0"
           (sample_env sample_entries) root_fs "o" "repo" "branch" "keep" ["/output"]);
    reflexivity.
Defined.

Lemma main_tree_url_owner_rejected_witness :
  main ConcreteFS.CFS ConcreteFS.stat ConcreteFS.readdir ConcreteFS.ensureDir
       ConcreteFS.writeFile ConcreteFS.remove "1.0.0" (sample_env sample_entries) root_fs
       (("https://github.com/" ++ "my~org" ++ "/" ++ "repo" ++ "/tree/" ++ "main" ++ "/" ++ "src") :: [])
  = mkMainResult _ [] (Some 1) (Some (mkRunResult _ root_fs [EvFail invalid_format_msg] (Some 1))).
Proof.
  apply (main_tree_url_owner_rejected ConcreteFS.CFS ConcreteFS.stat ConcreteFS.readdir
           ConcreteFS.ensureDir ConcreteFS.writeFile ConcreteFS.remove "1.0.0"
           (sample_env sample_entries) root_fs "my~org" "repo" "main" "src" []);
    reflexivity.
Defined.
